(** * Session telemetry aggregator: [CProcessInfo]

    A shallow embedding of [xbmc/cores/VideoPlayer/Process/ProcessInfo.cpp].
    Every member function is a computation over the object's members and an
    event trace.  The trace records, in program order, the critical sections
    that are entered and left and the calls made on the bound data cache, so
    that statements about locking discipline and mirroring can be read off
    the trace that a call appends. *)

From Stdlib Require Import ZArith List String Bool Lia.
From Stdlib Require Import QArith Qpower Qminmax.
From Stdlib Require Import Floats.SpecFloat.
From stdpp Require Import base decidable option list gmap strings sorting.
From coqutil Require Import Datatypes.RecordSetters.
Import TriangleBracketNotations.

Local Open Scope Z_scope.
Local Open Scope string_scope.

(** ** Scalar types

    Integers are only stored and copied by this class, never computed with,
    so they are carried as [Z].  Floating point values are IEEE-754 data in
    the representation of [SpecFloat]: a C++ [float] is a [spec_float] that
    satisfies [valid_binary 24 128], a [double] one that satisfies
    [valid_binary 53 1024]. *)

Definition int := Z.
Definition unsigned_int := Z.
Definition int64_t := Z.
Definition time_t := Z.
Definition float := spec_float.
Definition double := spec_float.

(** The literal [0] / [0.0] converted to a floating point type. *)
Definition fp_zero : spec_float := S754_zero false.

(** A [T*] is either [nullptr] ([None]) or the address of an object. *)
Definition address := N.
Definition pointer := option address.
Definition nullptr : pointer := None.

(** ** Declarations taken from headers outside this translation unit

    The enumerations of FFmpeg and of the player's stream and settings
    headers, and the Dolby Vision / HDR metadata structs, are declared
    elsewhere.  The code below only copies such values, names a few of their
    enumerators, value-initialises the structs (written [{}] in the source)
    and compares deinterlacing methods for equality, so that is all that is
    required of them here. *)

Class Externals := {
  StreamHdrType : Type;
  HDR_TYPE_NONE : StreamHdrType;
  AVColorSpace : Type;
  AVCOL_SPC_UNSPECIFIED : AVColorSpace;
  AVColorRange : Type;
  AVCOL_RANGE_UNSPECIFIED : AVColorRange;
  AVColorPrimaries : Type;
  AVCOL_PRI_UNSPECIFIED : AVColorPrimaries;
  AVColorTransferCharacteristic : Type;
  AVCOL_TRC_UNSPECIFIED : AVColorTransferCharacteristic;
  DOVIFrameMetadata : Type;
  DOVIFrameMetadata_init : DOVIFrameMetadata;
  DOVIStreamMetadata : Type;
  DOVIStreamMetadata_init : DOVIStreamMetadata;
  DOVIStreamInfo : Type;
  DOVIStreamInfo_init : DOVIStreamInfo;
  HDRStaticMetadataInfo : Type;
  HDRStaticMetadataInfo_init : HDRStaticMetadataInfo;
  DOLBY_VISION_OUTPUT_MODE_BYPASS : unsigned_int;
  DtsXType : Type;
  DTS_X_NONE : DtsXType;
  EINTERLACEMETHOD : Type;
  EINTERLACEMETHOD_eq_dec :: EqDecision EINTERLACEMETHOD;
  VS_INTERLACEMETHOD_NONE : EINTERLACEMETHOD;
  VS_INTERLACEMETHOD_DEINTERLACE : EINTERLACEMETHOD;
  VS_INTERLACEMETHOD_DEINTERLACE_HALF : EINTERLACEMETHOD;
  AVPixelFormat : Type;
  AV_PIX_FMT_YUV420P : AVPixelFormat;
  CVideoSettings : Type;
  CRenderInfo : Type;
  (** the member [CRenderInfo::m_deintMethods] *)
  CRenderInfo_m_deintMethods : CRenderInfo → list EINTERLACEMETHOD;
}.

(** ** The data cache as seen from this class

    [CDataCacheCore] is owned elsewhere; [CProcessInfo] only calls its
    setters.  One constructor per member function that
    [ProcessInfo.cpp] calls through [m_dataCache], carrying the arguments of
    the call. *)

Module CDataCacheCore.
Section Calls.
Context `{Externals}.

Inductive call : Type :=
| SetGuiRender (gui : bool)
| SetVideoRender (video : bool)
| SetVideoPts (pts : double)
| SetVideoDecoderName (name : string) (isHw : bool)
| SetVideoDeintMethod (method : string)
| SetVideoPixelFormat (pixFormat : string)
| SetVideoDimensions (width height : int)
| SetVideoFps (fps : float)
| SetVideoDAR (dar : float)
| SetStateSeeking (active : bool)
| SetVideoStereoMode (mode : string)
| SetVideoBitDepth (bitDepth : int)
| SetVideoHdrType (hdrType : StreamHdrType)
| SetVideoSourceHdrType (hdrType : StreamHdrType)
| SetVideoSourceAdditionalHdrType (hdrType : StreamHdrType)
| SetVideoColorSpace (colorSpace : AVColorSpace)
| SetVideoColorRange (colorRange : AVColorRange)
| SetVideoColorPrimaries (colorPrimaries : AVColorPrimaries)
| SetVideoColorTransferCharacteristic (trc : AVColorTransferCharacteristic)
| SetVideoDoViFrameMetadata (value : DOVIFrameMetadata)
| SetVideoDoViStreamMetadata (value : DOVIStreamMetadata)
| SetVideoDoViStreamInfo (value : DOVIStreamInfo)
| SetVideoSourceDoViStreamInfo (value : DOVIStreamInfo)
| SetVideoDoViCodecFourCC (codecFourCC : string)
| SetVideoHDRStaticMetadataInfo (value : HDRStaticMetadataInfo)
| SetVideoVS10Mode (vs10Mode : unsigned_int)
| SetVideoLiveBitRate (bitRate : double)
| SetVideoQueueLevel (level : int)
| SetVideoQueueDataLevel (level : int)
| SetVideoInterlaced (interlaced : bool)
| SetAudioDecoderName (name : string)
| SetAudioChannels (channels : string)
| SetAudioSampleRate (sampleRate : int)
| SetAudioBitsPerSample (bitsPerSample : int)
| SetAudioIsDolbyAtmos (isDolbyAtmos : bool)
| SetAudioDtsXType (dtsXType : DtsXType)
| SetAudioLiveBitRate (bitRate : double)
| SetAudioQueueLevel (level : int)
| SetAudioQueueDataLevel (level : int)
| SetRenderClockSync (enabled : bool)
| SeekFinished (offset : int64_t)
| SetSpeed (tempo speed : float)
| SetFrameAdvance (fa : bool)
| SetPlayTimes (start : time_t) (current min max : int64_t).

(** The member function a call goes to, as a number in declaration order;
    two calls address the same slot of the cache when these agree. *)
Definition member (c : call) : nat :=
  match c with
  | SetGuiRender _ => 0 | SetVideoRender _ => 1 | SetVideoPts _ => 2
  | SetVideoDecoderName _ _ => 3 | SetVideoDeintMethod _ => 4
  | SetVideoPixelFormat _ => 5 | SetVideoDimensions _ _ => 6
  | SetVideoFps _ => 7 | SetVideoDAR _ => 8 | SetStateSeeking _ => 9
  | SetVideoStereoMode _ => 10 | SetVideoBitDepth _ => 11
  | SetVideoHdrType _ => 12 | SetVideoSourceHdrType _ => 13
  | SetVideoSourceAdditionalHdrType _ => 14 | SetVideoColorSpace _ => 15
  | SetVideoColorRange _ => 16 | SetVideoColorPrimaries _ => 17
  | SetVideoColorTransferCharacteristic _ => 18
  | SetVideoDoViFrameMetadata _ => 19 | SetVideoDoViStreamMetadata _ => 20
  | SetVideoDoViStreamInfo _ => 21 | SetVideoSourceDoViStreamInfo _ => 22
  | SetVideoDoViCodecFourCC _ => 23 | SetVideoHDRStaticMetadataInfo _ => 24
  | SetVideoVS10Mode _ => 25 | SetVideoLiveBitRate _ => 26
  | SetVideoQueueLevel _ => 27 | SetVideoQueueDataLevel _ => 28
  | SetVideoInterlaced _ => 29 | SetAudioDecoderName _ => 30
  | SetAudioChannels _ => 31 | SetAudioSampleRate _ => 32
  | SetAudioBitsPerSample _ => 33 | SetAudioIsDolbyAtmos _ => 34
  | SetAudioDtsXType _ => 35 | SetAudioLiveBitRate _ => 36
  | SetAudioQueueLevel _ => 37 | SetAudioQueueDataLevel _ => 38
  | SetRenderClockSync _ => 39 | SeekFinished _ => 40 | SetSpeed _ _ => 41
  | SetFrameAdvance _ => 42 | SetPlayTimes _ _ _ _ => 43
  end%nat.

End Calls.
End CDataCacheCore.

(** ** Critical sections and the event trace *)

Inductive CCriticalSection : Type :=
| m_videoCodecSection
| m_audioCodecSection
| m_renderSection
| m_stateSection
| m_settingsSection.

#[global] Instance CCriticalSection_eq_dec : EqDecision CCriticalSection.
Proof. solve_decision. Defined.

Section Aggregator.
Context `{Externals}.

Inductive Event : Type :=
| Acquire (section : CCriticalSection)
| Release (section : CCriticalSection)
| DataCache (cache : address) (c : CDataCacheCore.call).

(** ** The members of [CProcessInfo]

    The class declaration is in [ProcessInfo.h]; each member below has the
    type that its accessors in [ProcessInfo.cpp] pass in and hand out.  The
    buffer manager and the locked settings wrapper, which are only handed
    out by reference, carry no value of their own and are left out. *)

Record CProcessInfo : Type := {
  m_dataCache : pointer;
  (* video codec *)
  m_videoPts : double;
  m_videoIsHWDecoder : bool;
  m_videoDecoderName : string;
  m_videoDeintMethod : string;
  m_videoPixelFormat : string;
  m_videoStereoMode : string;
  m_videoWidth : int;
  m_videoHeight : int;
  m_videoFPS : float;
  m_videoDAR : float;
  m_videoBitDepth : int;
  m_videoHdrType : StreamHdrType;
  m_videoSourceHdrType : StreamHdrType;
  m_videoSourceAdditionalHdrType : StreamHdrType;
  m_videoColorSpace : AVColorSpace;
  m_videoColorRange : AVColorRange;
  m_videoColorPrimaries : AVColorPrimaries;
  m_videoColorTransferCharacteristic : AVColorTransferCharacteristic;
  m_videoDoViFrameMetadata : DOVIFrameMetadata;
  m_videoDoViStreamMetadata : DOVIStreamMetadata;
  m_videoDoViStreamInfo : DOVIStreamInfo;
  m_videoSourceDoViStreamInfo : DOVIStreamInfo;
  m_videoDoViCodecFourCC : string;
  m_videoHDRStaticMetadataInfo : HDRStaticMetadataInfo;
  m_videoVS10Mode : unsigned_int;
  m_videoLiveBitRate : double;
  m_videoQueueLevel : int;
  m_videoQueueDataLevel : int;
  m_videoIsInterlaced : bool;
  m_deintMethods : list EINTERLACEMETHOD;
  m_deintMethodDefault : EINTERLACEMETHOD;
  m_pixFormats : list AVPixelFormat;
  (* player audio info *)
  m_audioDecoderName : string;
  m_audioChannels : string;
  m_audioSampleRate : int;
  m_audioBitsPerSample : int;
  m_audioIsDolbyAtmos : bool;
  m_audioDtsXType : DtsXType;
  m_audioLiveBitRate : double;
  m_audioQueueLevel : int;
  m_audioQueueDataLevel : int;
  (* render info *)
  m_isClockSync : bool;
  m_renderInfo : CRenderInfo;
  m_renderBufQueued : int;
  m_renderBufDiscard : int;
  m_renderBufFree : int;
  (* player states *)
  m_stateSeeking : bool;
  m_realTimeStream : bool;
  m_speed : float;
  m_newSpeed : float;
  m_frameAdvance : bool;
  m_tempo : float;
  m_newTempo : float;
  m_levelVQ : int;
  m_renderGuiLayer : bool;
  m_renderVideoLayer : bool;
  m_startTime : time_t;
  m_time : int64_t;
  m_timeMin : int64_t;
  m_timeMax : int64_t;
  (* settings *)
  m_videoSettings : CVideoSettings;
}.

(** ** Member functions as computations

    A member function runs on a [Machine]: the object it is called on and
    the trace so far.  It either returns, with a result and the machine it
    leaves behind, or it dereferences a null pointer, after which nothing
    is defined. *)

Record Machine : Type := { this : CProcessInfo; trace : list Event }.

Inductive Outcome (A : Type) : Type :=
| Returned (result : A) (after : Machine)
| NullDereference.
Arguments Returned {A} result after.
Arguments NullDereference {A}.

Definition Method (A : Type) : Type := Machine → Outcome A.

#[global] Instance Method_ret : MRet Method := λ A a σ, Returned a σ.
#[global] Instance Method_bind : MBind Method := λ A B f m σ,
  match m σ with
  | Returned a σ' => f a σ'
  | NullDereference => NullDereference
  end.

Notation "m ;; k" := (mbind (λ _ : (), k) m)
  (at level 100, k at level 200, right associativity) : stdpp_scope.

(** Reading a member, and assigning to members. *)
Definition load {A} (member : CProcessInfo → A) : Method A :=
  λ σ, Returned (member (this σ)) σ.
Definition store (assign : CProcessInfo → CProcessInfo) : Method () :=
  λ σ, Returned () {| this := assign (this σ); trace := trace σ |}.
Definition emit (e : Event) : Method () :=
  λ σ, Returned () {| this := this σ; trace := trace σ ++ [e] |}.

Notation "member :== value" :=
  (store (apply_update (mk_update member (constant value))))
  (at level 70, no associativity) : stdpp_scope.

(** [std::unique_lock<CCriticalSection> lock(section);] at the head of a
    function body: the section is held until the body is left. *)
Definition unique_lock {A} (section : CCriticalSection) (body : Method A)
  : Method A :=
  emit (Acquire section);; r ← body; emit (Release section);; mret r.

(** [m_dataCache->f(args)]: the pointer is dereferenced as it is. *)
Definition dataCache_call (c : CDataCacheCore.call) : Method () :=
  p ← load m_dataCache;
  match p with
  | Some cache => emit (DataCache cache c)
  | None => λ _, NullDereference
  end.

(** [if (m_dataCache) ...] *)
Definition if_dataCache (body : Method ()) : Method () :=
  p ← load m_dataCache;
  match p with
  | Some _ => body
  | None => mret ()
  end.

(** [if (cond) ...] without an else branch *)
Definition when (cond : bool) (body : Method ()) : Method () :=
  if cond then body else mret ().

(** [std::list] / [std::vector] member functions used below. *)
Definition push_back {A} (x : A) (l : list A) : list A := (l ++ [x])%list.
Definition push_front {A} (x : A) (l : list A) : list A := x :: l.
Definition empty {A} (l : list A) : bool :=
  match l with [] => true | _ :: _ => false end.

(** A range-based [for] over a list that the body does not modify. *)
Fixpoint for_each {A} (range : list A) (body : A → Method ()) : Method () :=
  match range with
  | [] => mret ()
  | x :: rest => body x;; for_each rest body
  end.

(** ** Video codec *)

Definition ResetVideoCodecInfo : Method () :=
  unique_lock m_videoCodecSection (
    m_videoPts :== fp_zero;;
    m_videoIsHWDecoder :== false;;
    m_videoDecoderName :== "unknown";;
    m_videoDeintMethod :== "unknown";;
    m_videoPixelFormat :== "unknown";;
    m_videoStereoMode :== "";;
    m_videoWidth :== 0;;
    m_videoHeight :== 0;;
    m_videoFPS :== fp_zero;;
    m_videoDAR :== fp_zero;;
    m_videoBitDepth :== 0;;
    m_videoHdrType :== HDR_TYPE_NONE;;
    m_videoSourceHdrType :== HDR_TYPE_NONE;;
    m_videoSourceAdditionalHdrType :== HDR_TYPE_NONE;;
    m_videoColorSpace :== AVCOL_SPC_UNSPECIFIED;;
    m_videoColorRange :== AVCOL_RANGE_UNSPECIFIED;;
    m_videoColorPrimaries :== AVCOL_PRI_UNSPECIFIED;;
    m_videoColorTransferCharacteristic :== AVCOL_TRC_UNSPECIFIED;;
    m_videoDoViFrameMetadata :== DOVIFrameMetadata_init;;
    m_videoDoViStreamInfo :== DOVIStreamInfo_init;;
    m_videoSourceDoViStreamInfo :== DOVIStreamInfo_init;;
    m_videoDoViCodecFourCC :== "";;
    m_videoHDRStaticMetadataInfo :== HDRStaticMetadataInfo_init;;
    m_videoVS10Mode :== DOLBY_VISION_OUTPUT_MODE_BYPASS;;
    m_videoLiveBitRate :== fp_zero;;
    m_videoQueueLevel :== 0;;
    m_videoQueueDataLevel :== 0;;
    m_videoIsInterlaced :== false;;
    m_deintMethods :== [];;
    store (λ p, p<|m_deintMethods ::= push_back VS_INTERLACEMETHOD_NONE|>);;
    m_deintMethodDefault :== VS_INTERLACEMETHOD_NONE;;
    m_stateSeeking :== false;;
    if_dataCache (
      p ← load id;
      dataCache_call (CDataCacheCore.SetVideoPts (m_videoPts p));;
      dataCache_call (CDataCacheCore.SetVideoDecoderName
                        (m_videoDecoderName p) (m_videoIsHWDecoder p));;
      dataCache_call (CDataCacheCore.SetVideoDeintMethod (m_videoDeintMethod p));;
      dataCache_call (CDataCacheCore.SetVideoPixelFormat (m_videoPixelFormat p));;
      dataCache_call (CDataCacheCore.SetVideoDimensions
                        (m_videoWidth p) (m_videoHeight p));;
      dataCache_call (CDataCacheCore.SetVideoFps (m_videoFPS p));;
      dataCache_call (CDataCacheCore.SetVideoDAR (m_videoDAR p));;
      dataCache_call (CDataCacheCore.SetStateSeeking (m_stateSeeking p));;
      dataCache_call (CDataCacheCore.SetVideoStereoMode (m_videoStereoMode p));;
      dataCache_call (CDataCacheCore.SetVideoBitDepth (m_videoBitDepth p));;
      dataCache_call (CDataCacheCore.SetVideoHdrType (m_videoHdrType p));;
      dataCache_call (CDataCacheCore.SetVideoSourceHdrType
                        (m_videoSourceHdrType p));;
      dataCache_call (CDataCacheCore.SetVideoSourceAdditionalHdrType
                        (m_videoSourceAdditionalHdrType p));;
      dataCache_call (CDataCacheCore.SetVideoColorSpace (m_videoColorSpace p));;
      dataCache_call (CDataCacheCore.SetVideoColorRange (m_videoColorRange p));;
      dataCache_call (CDataCacheCore.SetVideoColorPrimaries
                        (m_videoColorPrimaries p));;
      dataCache_call (CDataCacheCore.SetVideoColorTransferCharacteristic
                        (m_videoColorTransferCharacteristic p));;
      dataCache_call (CDataCacheCore.SetVideoDoViFrameMetadata
                        (m_videoDoViFrameMetadata p));;
      dataCache_call (CDataCacheCore.SetVideoDoViStreamInfo
                        (m_videoDoViStreamInfo p));;
      dataCache_call (CDataCacheCore.SetVideoSourceDoViStreamInfo
                        (m_videoSourceDoViStreamInfo p));;
      dataCache_call (CDataCacheCore.SetVideoDoViCodecFourCC
                        (m_videoDoViCodecFourCC p));;
      dataCache_call (CDataCacheCore.SetVideoHDRStaticMetadataInfo
                        (m_videoHDRStaticMetadataInfo p));;
      dataCache_call (CDataCacheCore.SetVideoVS10Mode (m_videoVS10Mode p));;
      dataCache_call (CDataCacheCore.SetVideoLiveBitRate (m_videoLiveBitRate p));;
      dataCache_call (CDataCacheCore.SetVideoQueueLevel (m_videoQueueLevel p));;
      dataCache_call (CDataCacheCore.SetVideoQueueDataLevel
                        (m_videoQueueDataLevel p)))).

Definition SetDataCache (cache : pointer) : Method () :=
  m_dataCache :== cache;;
  ResetVideoCodecInfo;;
  m_renderGuiLayer :== false;;
  m_renderVideoLayer :== false;;
  g ← load m_renderGuiLayer; dataCache_call (CDataCacheCore.SetGuiRender g);;
  v ← load m_renderVideoLayer; dataCache_call (CDataCacheCore.SetVideoRender v).

Definition SetVideoPts (pts : double) : Method () :=
  unique_lock m_videoCodecSection (
    m_videoPts :== pts;;
    if_dataCache (
      v ← load m_videoPts; dataCache_call (CDataCacheCore.SetVideoPts v))).

Definition GetVideoPts : Method double :=
  unique_lock m_videoCodecSection (load m_videoPts).

Definition SetVideoDecoderName (name : string) (isHw : bool) : Method () :=
  unique_lock m_videoCodecSection (
    m_videoIsHWDecoder :== isHw;;
    m_videoDecoderName :== name;;
    if_dataCache (
      n ← load m_videoDecoderName; hw ← load m_videoIsHWDecoder;
      dataCache_call (CDataCacheCore.SetVideoDecoderName n hw))).

Definition GetVideoDecoderName : Method string :=
  unique_lock m_videoCodecSection (load m_videoDecoderName).

Definition IsVideoHwDecoder : Method bool :=
  unique_lock m_videoCodecSection (load m_videoIsHWDecoder).

Definition SetVideoDeintMethod (method : string) : Method () :=
  unique_lock m_videoCodecSection (
    m_videoDeintMethod :== method;;
    if_dataCache (
      v ← load m_videoDeintMethod;
      dataCache_call (CDataCacheCore.SetVideoDeintMethod v))).

Definition GetVideoDeintMethod : Method string :=
  unique_lock m_videoCodecSection (load m_videoDeintMethod).

Definition SetVideoPixelFormat (pixFormat : string) : Method () :=
  unique_lock m_videoCodecSection (
    m_videoPixelFormat :== pixFormat;;
    if_dataCache (
      v ← load m_videoPixelFormat;
      dataCache_call (CDataCacheCore.SetVideoPixelFormat v))).

Definition GetVideoPixelFormat : Method string :=
  unique_lock m_videoCodecSection (load m_videoPixelFormat).

Definition SetVideoStereoMode (mode : string) : Method () :=
  unique_lock m_videoCodecSection (
    m_videoStereoMode :== mode;;
    if_dataCache (
      v ← load m_videoStereoMode;
      dataCache_call (CDataCacheCore.SetVideoStereoMode v))).

Definition GetVideoStereoMode : Method string :=
  unique_lock m_videoCodecSection (load m_videoStereoMode).

Definition SetVideoDimensions (width height : int) : Method () :=
  unique_lock m_videoCodecSection (
    m_videoWidth :== width;;
    m_videoHeight :== height;;
    if_dataCache (
      w ← load m_videoWidth; h ← load m_videoHeight;
      dataCache_call (CDataCacheCore.SetVideoDimensions w h))).

(** [GetVideoDimensions(int &width, int &height)]: the two out-parameters
    are the result. *)
Definition GetVideoDimensions : Method (int * int) :=
  unique_lock m_videoCodecSection (
    width ← load m_videoWidth; height ← load m_videoHeight;
    mret (width, height)).

Definition SetVideoBitDepth (bitDepth : int) : Method () :=
  unique_lock m_videoCodecSection (
    m_videoBitDepth :== bitDepth;;
    if_dataCache (
      v ← load m_videoBitDepth;
      dataCache_call (CDataCacheCore.SetVideoBitDepth v))).

Definition GetVideoBitDepth : Method int :=
  unique_lock m_videoCodecSection (load m_videoBitDepth).

Definition SetVideoHdrType (hdrType : StreamHdrType) : Method () :=
  unique_lock m_videoCodecSection (
    m_videoHdrType :== hdrType;;
    if_dataCache (
      v ← load m_videoHdrType;
      dataCache_call (CDataCacheCore.SetVideoHdrType v))).

Definition GetVideoHdrType : Method StreamHdrType :=
  unique_lock m_videoCodecSection (load m_videoHdrType).

Definition SetVideoSourceHdrType (hdrType : StreamHdrType) : Method () :=
  unique_lock m_videoCodecSection (
    m_videoSourceHdrType :== hdrType;;
    if_dataCache (
      v ← load m_videoSourceHdrType;
      dataCache_call (CDataCacheCore.SetVideoSourceHdrType v))).

Definition GetVideoSourceHdrType : Method StreamHdrType :=
  unique_lock m_videoCodecSection (load m_videoSourceHdrType).

Definition SetVideoSourceAdditionalHdrType (hdrType : StreamHdrType)
  : Method () :=
  unique_lock m_videoCodecSection (
    m_videoSourceAdditionalHdrType :== hdrType;;
    if_dataCache (
      v ← load m_videoSourceAdditionalHdrType;
      dataCache_call (CDataCacheCore.SetVideoSourceAdditionalHdrType v))).

Definition GetVideoSourceAdditionalHdrType : Method StreamHdrType :=
  unique_lock m_videoCodecSection (load m_videoSourceAdditionalHdrType).

Definition SetVideoColorSpace (colorSpace : AVColorSpace) : Method () :=
  unique_lock m_videoCodecSection (
    m_videoColorSpace :== colorSpace;;
    if_dataCache (
      v ← load m_videoColorSpace;
      dataCache_call (CDataCacheCore.SetVideoColorSpace v))).

Definition GetVideoColorSpace : Method AVColorSpace :=
  unique_lock m_videoCodecSection (load m_videoColorSpace).

Definition SetVideoColorRange (colorRange : AVColorRange) : Method () :=
  unique_lock m_videoCodecSection (
    m_videoColorRange :== colorRange;;
    if_dataCache (
      v ← load m_videoColorRange;
      dataCache_call (CDataCacheCore.SetVideoColorRange v))).

Definition GetVideoColorRange : Method AVColorRange :=
  unique_lock m_videoCodecSection (load m_videoColorRange).

Definition SetVideoColorPrimaries (colorPrimaries : AVColorPrimaries)
  : Method () :=
  unique_lock m_videoCodecSection (
    m_videoColorPrimaries :== colorPrimaries;;
    if_dataCache (
      v ← load m_videoColorPrimaries;
      dataCache_call (CDataCacheCore.SetVideoColorPrimaries v))).

Definition GetVideoColorPrimaries : Method AVColorPrimaries :=
  unique_lock m_videoCodecSection (load m_videoColorPrimaries).

Definition SetVideoColorTransferCharacteristic (colorTransferCharacteristic : AVColorTransferCharacteristic)
  : Method () :=
  unique_lock m_videoCodecSection (
    m_videoColorTransferCharacteristic :== colorTransferCharacteristic;;
    if_dataCache (
      v ← load m_videoColorTransferCharacteristic;
      dataCache_call (CDataCacheCore.SetVideoColorTransferCharacteristic v))).

Definition GetVideoColorTransferCharacteristic : Method AVColorTransferCharacteristic :=
  unique_lock m_videoCodecSection (load m_videoColorTransferCharacteristic).

Definition SetVideoDoViFrameMetadata (value : DOVIFrameMetadata) : Method () :=
  unique_lock m_videoCodecSection (
    m_videoDoViFrameMetadata :== value;;
    if_dataCache (
      v ← load m_videoDoViFrameMetadata;
      dataCache_call (CDataCacheCore.SetVideoDoViFrameMetadata v))).

Definition GetVideoDoViFrameMetadata : Method DOVIFrameMetadata :=
  unique_lock m_videoCodecSection (load m_videoDoViFrameMetadata).

Definition SetVideoDoViStreamMetadata (value : DOVIStreamMetadata)
  : Method () :=
  unique_lock m_videoCodecSection (
    m_videoDoViStreamMetadata :== value;;
    if_dataCache (
      v ← load m_videoDoViStreamMetadata;
      dataCache_call (CDataCacheCore.SetVideoDoViStreamMetadata v))).

Definition GetVideoDoViStreamMetadata : Method DOVIStreamMetadata :=
  unique_lock m_videoCodecSection (load m_videoDoViStreamMetadata).

Definition SetVideoDoViStreamInfo (value : DOVIStreamInfo) : Method () :=
  unique_lock m_videoCodecSection (
    m_videoDoViStreamInfo :== value;;
    if_dataCache (
      v ← load m_videoDoViStreamInfo;
      dataCache_call (CDataCacheCore.SetVideoDoViStreamInfo v))).

Definition GetVideoDoViStreamInfo : Method DOVIStreamInfo :=
  unique_lock m_videoCodecSection (load m_videoDoViStreamInfo).

Definition SetVideoSourceDoViStreamInfo (value : DOVIStreamInfo) : Method () :=
  unique_lock m_videoCodecSection (
    m_videoSourceDoViStreamInfo :== value;;
    if_dataCache (
      v ← load m_videoSourceDoViStreamInfo;
      dataCache_call (CDataCacheCore.SetVideoSourceDoViStreamInfo v))).

Definition GetVideoSourceDoViStreamInfo : Method DOVIStreamInfo :=
  unique_lock m_videoCodecSection (load m_videoSourceDoViStreamInfo).

Definition SetVideoDoViCodecFourCC (codecFourCC : string) : Method () :=
  unique_lock m_videoCodecSection (
    m_videoDoViCodecFourCC :== codecFourCC;;
    if_dataCache (
      v ← load m_videoDoViCodecFourCC;
      dataCache_call (CDataCacheCore.SetVideoDoViCodecFourCC v))).

Definition GetVideoDoViCodecFourCC : Method string :=
  unique_lock m_videoCodecSection (load m_videoDoViCodecFourCC).

Definition SetVideoHDRStaticMetadataInfo (value : HDRStaticMetadataInfo)
  : Method () :=
  unique_lock m_videoCodecSection (
    m_videoHDRStaticMetadataInfo :== value;;
    if_dataCache (
      v ← load m_videoHDRStaticMetadataInfo;
      dataCache_call (CDataCacheCore.SetVideoHDRStaticMetadataInfo v))).

Definition GetVideoHDRStaticMetadataInfo : Method HDRStaticMetadataInfo :=
  unique_lock m_videoCodecSection (load m_videoHDRStaticMetadataInfo).

Definition SetVideoVS10Mode (vs10Mode : unsigned_int) : Method () :=
  unique_lock m_videoCodecSection (
    m_videoVS10Mode :== vs10Mode;;
    if_dataCache (
      v ← load m_videoVS10Mode;
      dataCache_call (CDataCacheCore.SetVideoVS10Mode v))).

Definition GetVideoVS10Mode : Method unsigned_int :=
  unique_lock m_videoCodecSection (load m_videoVS10Mode).

Definition SetVideoLiveBitRate (bitRate : double) : Method () :=
  unique_lock m_videoCodecSection (
    m_videoLiveBitRate :== bitRate;;
    if_dataCache (
      v ← load m_videoLiveBitRate;
      dataCache_call (CDataCacheCore.SetVideoLiveBitRate v))).

Definition GetVideoLiveBitRate : Method double :=
  unique_lock m_videoCodecSection (load m_videoLiveBitRate).

Definition SetVideoQueueLevel (level : int) : Method () :=
  unique_lock m_videoCodecSection (
    m_videoQueueLevel :== level;;
    if_dataCache (
      v ← load m_videoQueueLevel;
      dataCache_call (CDataCacheCore.SetVideoQueueLevel v))).

Definition GetVideoQueueLevel : Method int :=
  unique_lock m_videoCodecSection (load m_videoQueueLevel).

Definition SetVideoQueueDataLevel (level : int) : Method () :=
  unique_lock m_videoCodecSection (
    m_videoQueueDataLevel :== level;;
    if_dataCache (
      v ← load m_videoQueueDataLevel;
      dataCache_call (CDataCacheCore.SetVideoQueueDataLevel v))).

Definition GetVideoQueueDataLevel : Method int :=
  unique_lock m_videoCodecSection (load m_videoQueueDataLevel).

Definition SetVideoFps (fps : float) : Method () :=
  unique_lock m_videoCodecSection (
    m_videoFPS :== fps;;
    if_dataCache (
      v ← load m_videoFPS;
      dataCache_call (CDataCacheCore.SetVideoFps v))).

Definition GetVideoFps : Method float :=
  unique_lock m_videoCodecSection (load m_videoFPS).

Definition SetVideoDAR (dar : float) : Method () :=
  unique_lock m_videoCodecSection (
    m_videoDAR :== dar;;
    if_dataCache (
      v ← load m_videoDAR;
      dataCache_call (CDataCacheCore.SetVideoDAR v))).

Definition GetVideoDAR : Method float :=
  unique_lock m_videoCodecSection (load m_videoDAR).

Definition SetVideoInterlaced (interlaced : bool) : Method () :=
  unique_lock m_videoCodecSection (
    m_videoIsInterlaced :== interlaced;;
    if_dataCache (
      dataCache_call (CDataCacheCore.SetVideoInterlaced interlaced))).

Definition GetVideoInterlaced : Method bool :=
  unique_lock m_videoCodecSection (load m_videoIsInterlaced).
Definition GetFallbackDeintMethod : EINTERLACEMETHOD :=
  VS_INTERLACEMETHOD_DEINTERLACE.

(** [std::find(m_deintMethods.begin(), m_deintMethods.end(), method)] hits
    exactly when [method] is an element of the list. *)
Definition Supports (method : EINTERLACEMETHOD) : Method bool :=
  unique_lock m_videoCodecSection (
    l ← load m_deintMethods;
    if bool_decide (method ∈ l) then mret true else mret false).

Definition UpdateDeinterlacingMethods (methods : list EINTERLACEMETHOD)
  : Method () :=
  unique_lock m_videoCodecSection (
    m_deintMethods :== methods;;
    info ← load m_renderInfo;
    for_each (CRenderInfo_m_deintMethods info) (λ deint,
      s ← Supports deint;
      when (negb s) (store (λ p, p<|m_deintMethods ::= push_back deint|>)));;
    s ← Supports VS_INTERLACEMETHOD_NONE;
    when (negb s)
      (store (λ p, p<|m_deintMethods ::= push_front VS_INTERLACEMETHOD_NONE|>))).

Definition SetDeinterlacingMethodDefault (method : EINTERLACEMETHOD)
  : Method () :=
  unique_lock m_videoCodecSection (m_deintMethodDefault :== method).

Definition GetDeinterlacingMethodDefault : Method EINTERLACEMETHOD :=
  unique_lock m_videoCodecSection (load m_deintMethodDefault).

Definition SetSwDeinterlacingMethods : Method () :=
  let methods : list EINTERLACEMETHOD := [] in
  let methods := push_back VS_INTERLACEMETHOD_NONE methods in
  let methods := push_back VS_INTERLACEMETHOD_DEINTERLACE methods in
  let methods := push_back VS_INTERLACEMETHOD_DEINTERLACE_HALF methods in
  UpdateDeinterlacingMethods methods;;
  SetDeinterlacingMethodDefault VS_INTERLACEMETHOD_DEINTERLACE.

Definition GetRenderFormats : list AVPixelFormat :=
  let formats : list AVPixelFormat := [] in
  let formats := push_back AV_PIX_FMT_YUV420P formats in
  formats.

Definition GetPixFormats : Method (list AVPixelFormat) :=
  unique_lock m_videoCodecSection (
    formats ← load m_pixFormats;
    if empty formats then mret GetRenderFormats else mret formats).

Definition SetPixFormats (formats : list AVPixelFormat) : Method () :=
  unique_lock m_videoCodecSection (m_pixFormats :== formats).

(** ** Player audio info *)

Definition ResetAudioCodecInfo : Method () :=
  unique_lock m_audioCodecSection (
    m_audioDecoderName :== "unknown";;
    m_audioChannels :== "unknown";;
    m_audioSampleRate :== 0;;
    m_audioBitsPerSample :== 0;;
    m_audioIsDolbyAtmos :== false;;
    m_audioDtsXType :== DTS_X_NONE;;
    m_audioLiveBitRate :== fp_zero;;
    m_audioQueueLevel :== 0;;
    m_audioQueueDataLevel :== 0;;
    if_dataCache (
      p ← load id;
      dataCache_call (CDataCacheCore.SetAudioDecoderName (m_audioDecoderName p));;
      dataCache_call (CDataCacheCore.SetAudioChannels (m_audioChannels p));;
      dataCache_call (CDataCacheCore.SetAudioSampleRate (m_audioSampleRate p));;
      dataCache_call (CDataCacheCore.SetAudioBitsPerSample
                        (m_audioBitsPerSample p));;
      dataCache_call (CDataCacheCore.SetAudioIsDolbyAtmos
                        (m_audioIsDolbyAtmos p));;
      dataCache_call (CDataCacheCore.SetAudioDtsXType (m_audioDtsXType p));;
      dataCache_call (CDataCacheCore.SetAudioLiveBitRate (m_audioLiveBitRate p));;
      dataCache_call (CDataCacheCore.SetAudioQueueLevel (m_audioQueueLevel p));;
      dataCache_call (CDataCacheCore.SetAudioQueueDataLevel
                        (m_audioQueueLevel p)))).

Definition SetAudioDecoderName (name : string) : Method () :=
  unique_lock m_audioCodecSection (
    m_audioDecoderName :== name;;
    if_dataCache (
      v ← load m_audioDecoderName;
      dataCache_call (CDataCacheCore.SetAudioDecoderName v))).

Definition GetAudioDecoderName : Method string :=
  unique_lock m_audioCodecSection (load m_audioDecoderName).

Definition SetAudioChannels (channels : string) : Method () :=
  unique_lock m_audioCodecSection (
    m_audioChannels :== channels;;
    if_dataCache (
      v ← load m_audioChannels;
      dataCache_call (CDataCacheCore.SetAudioChannels v))).

Definition GetAudioChannels : Method string :=
  unique_lock m_audioCodecSection (load m_audioChannels).

Definition SetAudioSampleRate (sampleRate : int) : Method () :=
  unique_lock m_audioCodecSection (
    m_audioSampleRate :== sampleRate;;
    if_dataCache (
      v ← load m_audioSampleRate;
      dataCache_call (CDataCacheCore.SetAudioSampleRate v))).

Definition GetAudioSampleRate : Method int :=
  unique_lock m_audioCodecSection (load m_audioSampleRate).

Definition SetAudioBitsPerSample (bitsPerSample : int) : Method () :=
  unique_lock m_audioCodecSection (
    m_audioBitsPerSample :== bitsPerSample;;
    if_dataCache (
      v ← load m_audioBitsPerSample;
      dataCache_call (CDataCacheCore.SetAudioBitsPerSample v))).

Definition GetAudioBitsPerSample : Method int :=
  unique_lock m_audioCodecSection (load m_audioBitsPerSample).

Definition SetAudioIsDolbyAtmos (isDolbyAtmos : bool) : Method () :=
  unique_lock m_audioCodecSection (
    m_audioIsDolbyAtmos :== isDolbyAtmos;;
    if_dataCache (
      v ← load m_audioIsDolbyAtmos;
      dataCache_call (CDataCacheCore.SetAudioIsDolbyAtmos v))).

Definition GetAudioIsDolbyAtmos : Method bool :=
  unique_lock m_audioCodecSection (load m_audioIsDolbyAtmos).

Definition SetAudioDtsXType (dtsXType : DtsXType) : Method () :=
  unique_lock m_audioCodecSection (
    m_audioDtsXType :== dtsXType;;
    if_dataCache (
      v ← load m_audioDtsXType;
      dataCache_call (CDataCacheCore.SetAudioDtsXType v))).

Definition GetAudioDtsXType : Method DtsXType :=
  unique_lock m_audioCodecSection (load m_audioDtsXType).

Definition SetAudioLiveBitRate (bitRate : double) : Method () :=
  unique_lock m_audioCodecSection (
    m_audioLiveBitRate :== bitRate;;
    if_dataCache (
      v ← load m_audioLiveBitRate;
      dataCache_call (CDataCacheCore.SetAudioLiveBitRate v))).

Definition GetAudioLiveBitRate : Method double :=
  unique_lock m_audioCodecSection (load m_audioLiveBitRate).

Definition SetAudioQueueLevel (level : int) : Method () :=
  unique_lock m_audioCodecSection (
    m_audioQueueLevel :== level;;
    if_dataCache (
      v ← load m_audioQueueLevel;
      dataCache_call (CDataCacheCore.SetAudioQueueLevel v))).

Definition GetAudioQueueLevel : Method int :=
  unique_lock m_audioCodecSection (load m_audioQueueLevel).

Definition SetAudioQueueDataLevel (level : int) : Method () :=
  unique_lock m_audioCodecSection (
    m_audioQueueDataLevel :== level;;
    if_dataCache (
      v ← load m_audioQueueDataLevel;
      dataCache_call (CDataCacheCore.SetAudioQueueDataLevel v))).

Definition GetAudioQueueDataLevel : Method int :=
  unique_lock m_audioCodecSection (load m_audioQueueDataLevel).
Definition AllowDTSHDDecode : bool := true.

(** ** Render info *)

Definition SetRenderClockSync (enabled : bool) : Method () :=
  unique_lock m_renderSection (
    m_isClockSync :== enabled;;
    if_dataCache (
      dataCache_call (CDataCacheCore.SetRenderClockSync enabled))).

Definition IsRenderClockSync : Method bool :=
  unique_lock m_renderSection (load m_isClockSync).

Definition UpdateRenderInfo (info : CRenderInfo) : Method () :=
  unique_lock m_renderSection (
    m_renderInfo :== info;;
    info ← load m_renderInfo;
    for_each (CRenderInfo_m_deintMethods info) (λ deint,
      s ← Supports deint;
      when (negb s) (store (λ p, p<|m_deintMethods ::= push_back deint|>)))).

Definition UpdateRenderBuffers (queued discard free : int) : Method () :=
  unique_lock m_renderSection (
    m_renderBufQueued :== queued;;
    m_renderBufDiscard :== discard;;
    m_renderBufFree :== free).

(** [GetRenderBuffers(int &queued, int &discard, int &free)] *)
Definition GetRenderBuffers : Method (int * int * int) :=
  unique_lock m_renderSection (
    queued ← load m_renderBufQueued;
    discard ← load m_renderBufDiscard;
    free ← load m_renderBufFree;
    mret (queued, discard, free)).

(** ** Player states *)

Definition SeekFinished (offset : int64_t) : Method () :=
  unique_lock m_stateSection (
    if_dataCache (dataCache_call (CDataCacheCore.SeekFinished offset))).

Definition SetStateSeeking (active : bool) : Method () :=
  unique_lock m_renderSection (
    m_stateSeeking :== active;;
    if_dataCache (dataCache_call (CDataCacheCore.SetStateSeeking active))).

Definition IsSeeking : Method bool :=
  unique_lock m_stateSection (load m_stateSeeking).

Definition SetStateRealtime (state : bool) : Method () :=
  unique_lock m_renderSection (m_realTimeStream :== state).

Definition IsRealtimeStream : Method bool :=
  unique_lock m_stateSection (load m_realTimeStream).

Definition SetSpeed (speed : float) : Method () :=
  unique_lock m_stateSection (
    m_speed :== speed;;
    m_newSpeed :== speed;;
    if_dataCache (
      tempo ← load m_newTempo;
      dataCache_call (CDataCacheCore.SetSpeed tempo speed))).

Definition SetNewSpeed (speed : float) : Method () :=
  unique_lock m_stateSection (
    m_newSpeed :== speed;;
    if_dataCache (
      tempo ← load m_tempo;
      dataCache_call (CDataCacheCore.SetSpeed tempo speed))).

Definition GetNewSpeed : Method float :=
  unique_lock m_stateSection (load m_newSpeed).

Definition SetFrameAdvance (fa : bool) : Method () :=
  unique_lock m_stateSection (
    m_frameAdvance :== fa;;
    if_dataCache (dataCache_call (CDataCacheCore.SetFrameAdvance fa))).

Definition IsFrameAdvance : Method bool :=
  unique_lock m_stateSection (load m_frameAdvance).

Definition SetTempo (tempo : float) : Method () :=
  unique_lock m_stateSection (
    m_tempo :== tempo;;
    m_newTempo :== tempo;;
    if_dataCache (
      speed ← load m_newSpeed;
      dataCache_call (CDataCacheCore.SetSpeed tempo speed))).

Definition SetNewTempo (tempo : float) : Method () :=
  unique_lock m_stateSection (
    m_newTempo :== tempo;;
    if_dataCache (
      speed ← load m_speed;
      dataCache_call (CDataCacheCore.SetSpeed tempo speed))).

Definition GetNewTempo : Method float :=
  unique_lock m_stateSection (load m_newTempo).

(** [0.75f]: the binary32 value 12582912 * 2^-24. *)
Definition MinTempoPlatform : float := S754_finite false 12582912 (-24).

(** [1.55f]: the binary32 value nearest to 1.55, 13002342 * 2^-23. *)
Definition MaxTempoPlatform : float := S754_finite false 13002342 (-23).

(** The part of [CAdvancedSettings] that this class reads through
    [CServiceBroker::GetSettingsComponent()->GetAdvancedSettings()]. *)
Record CAdvancedSettings : Type := {
  m_maxTempo : float;
  m_maxPassthroughOffSyncDuration : unsigned_int;
}.

(** [a > b] and [a < b] on floating point values: false as soon as one
    side is a NaN. *)
Definition fp_lt (a b : spec_float) : bool := SFltb a b.
Definition fp_gt (a b : spec_float) : bool := SFltb b a.

Definition IsTempoAllowed (advancedSettings : CAdvancedSettings)
    (tempo : float) : bool :=
  if fp_gt tempo MinTempoPlatform &&
     (fp_lt tempo MaxTempoPlatform
      || fp_lt tempo (m_maxTempo advancedSettings))
  then true
  else false.

Definition GetMaxPassthroughOffSyncDuration
    (advancedSettings : CAdvancedSettings) : unsigned_int :=
  m_maxPassthroughOffSyncDuration advancedSettings.

(** [SetLevelVQ] and [GetLevelVQ] take no lock. *)
Definition SetLevelVQ (level : int) : Method () :=
  m_levelVQ :== level.

Definition GetLevelVQ : Method int :=
  load m_levelVQ.

Definition SetGuiRender (gui : bool) : Method () :=
  unique_lock m_stateSection (
    old ← load m_renderGuiLayer;
    let change := negb (Bool.eqb old gui) in
    m_renderGuiLayer :== gui;;
    when change (
      if_dataCache (dataCache_call (CDataCacheCore.SetGuiRender gui)))).

Definition GetGuiRender : Method bool :=
  unique_lock m_stateSection (load m_renderGuiLayer).

Definition SetVideoRender (video : bool) : Method () :=
  unique_lock m_stateSection (
    old ← load m_renderVideoLayer;
    let change := negb (Bool.eqb old video) in
    m_renderVideoLayer :== video;;
    when change (
      if_dataCache (dataCache_call (CDataCacheCore.SetVideoRender video)))).

Definition GetVideoRender : Method bool :=
  unique_lock m_stateSection (load m_renderVideoLayer).

Definition SetPlayTimes (start : time_t) (current min max : int64_t)
  : Method () :=
  unique_lock m_stateSection (
    m_startTime :== start;;
    m_time :== current;;
    m_timeMin :== min;;
    m_timeMax :== max;;
    if_dataCache (
      dataCache_call (CDataCacheCore.SetPlayTimes start current min max))).

Definition GetMaxTime : Method int64_t :=
  unique_lock m_stateSection (load m_timeMax).

(** ** Settings *)

Definition GetVideoSettings : Method CVideoSettings :=
  unique_lock m_settingsSection (load m_videoSettings).

Definition SetVideoSettings (settings : CVideoSettings) : Method () :=
  unique_lock m_settingsSection (m_videoSettings :== settings).

(** ** What a call leaves in the trace *)

(** The events that a computation appended to a trace of length [n]. *)
Definition appended (before : Machine) (after : Machine) : list Event :=
  drop (length (trace before)) (trace after).

(** The calls on data caches among some events, in order. *)
Definition cache_calls (events : list Event)
  : list (address * CDataCacheCore.call) :=
  omap (λ e, match e with
             | DataCache cache c => Some (cache, c)
             | _ => None
             end) events.

(** What [if (m_dataCache) m_dataCache->f(args);] emits for a given value
    of [m_dataCache]. *)
Definition forwarded (dataCache : pointer) (c : CDataCacheCore.call)
  : list Event :=
  match dataCache with
  | Some cache => [DataCache cache c]
  | None => []
  end.

(** Modelled from the spec: [CDataCacheCore] (cores/DataCacheCore.h) is not
    part of this translation unit.  The spec describes it as a sink that is
    "consumed via a fixed set of field-level setters/getters": what a cache
    holds for a field is what the latest call of that field's setter on it
    carried.  [last_call cache member t] is that call, if there was one. *)
Fixpoint last_call (cache : address) (member : nat) (t : list Event)
  : option CDataCacheCore.call :=
  match t with
  | [] => None
  | e :: rest =>
      match last_call cache member rest with
      | Some c => Some c
      | None =>
          match e with
          | DataCache a c =>
              if bool_decide (a = cache ∧ CDataCacheCore.member c = member)
              then Some c else None
          | _ => None
          end
      end
  end.

Definition cache_holds (cache : address) (c : CDataCacheCore.call)
    (t : list Event) : Prop :=
  last_call cache (CDataCacheCore.member c) t = Some c.

(** The bound cache, if there is one, holds [c]. *)
Definition bound_cache_holds (σ : Machine) (c : CDataCacheCore.call) : Prop :=
  match m_dataCache (this σ) with
  | Some cache => cache_holds cache c (trace σ)
  | None => True
  end.

(** ** Tables of the accessors

    A setter together with the critical section it holds, the members it
    assigns, and the data cache call that mirrors it. *)

Record MirroringSetter : Type := {
  value : Type;
  setter : value → Method ();
  section : CCriticalSection;
  (** the members the setter assigns hold [v] in object [p] *)
  stores : CProcessInfo → value → Prop;
  (** the call that carries [v], given the object the setter ran on *)
  mirror : CProcessInfo → value → CDataCacheCore.call;
}.

Definition mirroring_setters : list MirroringSetter := [
  {| setter := SetVideoPts; section := m_videoCodecSection;
     stores := λ p v, m_videoPts p = v;
     mirror := λ _, CDataCacheCore.SetVideoPts |};
  {| setter := λ v, SetVideoDecoderName v.1 v.2;
     section := m_videoCodecSection;
     stores := λ p v, (m_videoDecoderName p, m_videoIsHWDecoder p) = v;
     mirror := λ _ v, CDataCacheCore.SetVideoDecoderName v.1 v.2 |};
  {| setter := SetVideoDeintMethod; section := m_videoCodecSection;
     stores := λ p v, m_videoDeintMethod p = v;
     mirror := λ _, CDataCacheCore.SetVideoDeintMethod |};
  {| setter := SetVideoPixelFormat; section := m_videoCodecSection;
     stores := λ p v, m_videoPixelFormat p = v;
     mirror := λ _, CDataCacheCore.SetVideoPixelFormat |};
  {| setter := SetVideoStereoMode; section := m_videoCodecSection;
     stores := λ p v, m_videoStereoMode p = v;
     mirror := λ _, CDataCacheCore.SetVideoStereoMode |};
  {| setter := λ v, SetVideoDimensions v.1 v.2;
     section := m_videoCodecSection;
     stores := λ p v, (m_videoWidth p, m_videoHeight p) = v;
     mirror := λ _ v, CDataCacheCore.SetVideoDimensions v.1 v.2 |};
  {| setter := SetVideoBitDepth; section := m_videoCodecSection;
     stores := λ p v, m_videoBitDepth p = v;
     mirror := λ _, CDataCacheCore.SetVideoBitDepth |};
  {| setter := SetVideoHdrType; section := m_videoCodecSection;
     stores := λ p v, m_videoHdrType p = v;
     mirror := λ _, CDataCacheCore.SetVideoHdrType |};
  {| setter := SetVideoSourceHdrType; section := m_videoCodecSection;
     stores := λ p v, m_videoSourceHdrType p = v;
     mirror := λ _, CDataCacheCore.SetVideoSourceHdrType |};
  {| setter := SetVideoSourceAdditionalHdrType;
     section := m_videoCodecSection;
     stores := λ p v, m_videoSourceAdditionalHdrType p = v;
     mirror := λ _, CDataCacheCore.SetVideoSourceAdditionalHdrType |};
  {| setter := SetVideoColorSpace; section := m_videoCodecSection;
     stores := λ p v, m_videoColorSpace p = v;
     mirror := λ _, CDataCacheCore.SetVideoColorSpace |};
  {| setter := SetVideoColorRange; section := m_videoCodecSection;
     stores := λ p v, m_videoColorRange p = v;
     mirror := λ _, CDataCacheCore.SetVideoColorRange |};
  {| setter := SetVideoColorPrimaries; section := m_videoCodecSection;
     stores := λ p v, m_videoColorPrimaries p = v;
     mirror := λ _, CDataCacheCore.SetVideoColorPrimaries |};
  {| setter := SetVideoColorTransferCharacteristic;
     section := m_videoCodecSection;
     stores := λ p v, m_videoColorTransferCharacteristic p = v;
     mirror := λ _, CDataCacheCore.SetVideoColorTransferCharacteristic |};
  {| setter := SetVideoDoViFrameMetadata; section := m_videoCodecSection;
     stores := λ p v, m_videoDoViFrameMetadata p = v;
     mirror := λ _, CDataCacheCore.SetVideoDoViFrameMetadata |};
  {| setter := SetVideoDoViStreamMetadata; section := m_videoCodecSection;
     stores := λ p v, m_videoDoViStreamMetadata p = v;
     mirror := λ _, CDataCacheCore.SetVideoDoViStreamMetadata |};
  {| setter := SetVideoDoViStreamInfo; section := m_videoCodecSection;
     stores := λ p v, m_videoDoViStreamInfo p = v;
     mirror := λ _, CDataCacheCore.SetVideoDoViStreamInfo |};
  {| setter := SetVideoSourceDoViStreamInfo; section := m_videoCodecSection;
     stores := λ p v, m_videoSourceDoViStreamInfo p = v;
     mirror := λ _, CDataCacheCore.SetVideoSourceDoViStreamInfo |};
  {| setter := SetVideoDoViCodecFourCC; section := m_videoCodecSection;
     stores := λ p v, m_videoDoViCodecFourCC p = v;
     mirror := λ _, CDataCacheCore.SetVideoDoViCodecFourCC |};
  {| setter := SetVideoHDRStaticMetadataInfo; section := m_videoCodecSection;
     stores := λ p v, m_videoHDRStaticMetadataInfo p = v;
     mirror := λ _, CDataCacheCore.SetVideoHDRStaticMetadataInfo |};
  {| setter := SetVideoVS10Mode; section := m_videoCodecSection;
     stores := λ p v, m_videoVS10Mode p = v;
     mirror := λ _, CDataCacheCore.SetVideoVS10Mode |};
  {| setter := SetVideoLiveBitRate; section := m_videoCodecSection;
     stores := λ p v, m_videoLiveBitRate p = v;
     mirror := λ _, CDataCacheCore.SetVideoLiveBitRate |};
  {| setter := SetVideoQueueLevel; section := m_videoCodecSection;
     stores := λ p v, m_videoQueueLevel p = v;
     mirror := λ _, CDataCacheCore.SetVideoQueueLevel |};
  {| setter := SetVideoQueueDataLevel; section := m_videoCodecSection;
     stores := λ p v, m_videoQueueDataLevel p = v;
     mirror := λ _, CDataCacheCore.SetVideoQueueDataLevel |};
  {| setter := SetVideoFps; section := m_videoCodecSection;
     stores := λ p v, m_videoFPS p = v;
     mirror := λ _, CDataCacheCore.SetVideoFps |};
  {| setter := SetVideoDAR; section := m_videoCodecSection;
     stores := λ p v, m_videoDAR p = v;
     mirror := λ _, CDataCacheCore.SetVideoDAR |};
  {| setter := SetVideoInterlaced; section := m_videoCodecSection;
     stores := λ p v, m_videoIsInterlaced p = v;
     mirror := λ _, CDataCacheCore.SetVideoInterlaced |};
  {| setter := SetAudioDecoderName; section := m_audioCodecSection;
     stores := λ p v, m_audioDecoderName p = v;
     mirror := λ _, CDataCacheCore.SetAudioDecoderName |};
  {| setter := SetAudioChannels; section := m_audioCodecSection;
     stores := λ p v, m_audioChannels p = v;
     mirror := λ _, CDataCacheCore.SetAudioChannels |};
  {| setter := SetAudioSampleRate; section := m_audioCodecSection;
     stores := λ p v, m_audioSampleRate p = v;
     mirror := λ _, CDataCacheCore.SetAudioSampleRate |};
  {| setter := SetAudioBitsPerSample; section := m_audioCodecSection;
     stores := λ p v, m_audioBitsPerSample p = v;
     mirror := λ _, CDataCacheCore.SetAudioBitsPerSample |};
  {| setter := SetAudioIsDolbyAtmos; section := m_audioCodecSection;
     stores := λ p v, m_audioIsDolbyAtmos p = v;
     mirror := λ _, CDataCacheCore.SetAudioIsDolbyAtmos |};
  {| setter := SetAudioDtsXType; section := m_audioCodecSection;
     stores := λ p v, m_audioDtsXType p = v;
     mirror := λ _, CDataCacheCore.SetAudioDtsXType |};
  {| setter := SetAudioLiveBitRate; section := m_audioCodecSection;
     stores := λ p v, m_audioLiveBitRate p = v;
     mirror := λ _, CDataCacheCore.SetAudioLiveBitRate |};
  {| setter := SetAudioQueueLevel; section := m_audioCodecSection;
     stores := λ p v, m_audioQueueLevel p = v;
     mirror := λ _, CDataCacheCore.SetAudioQueueLevel |};
  {| setter := SetAudioQueueDataLevel; section := m_audioCodecSection;
     stores := λ p v, m_audioQueueDataLevel p = v;
     mirror := λ _, CDataCacheCore.SetAudioQueueDataLevel |};
  {| setter := SetRenderClockSync; section := m_renderSection;
     stores := λ p v, m_isClockSync p = v;
     mirror := λ _, CDataCacheCore.SetRenderClockSync |};
  {| setter := SetStateSeeking; section := m_renderSection;
     stores := λ p v, m_stateSeeking p = v;
     mirror := λ _, CDataCacheCore.SetStateSeeking |};
  {| setter := SetSpeed; section := m_stateSection;
     stores := λ p v, m_speed p = v ∧ m_newSpeed p = v;
     mirror := λ p speed, CDataCacheCore.SetSpeed (m_newTempo p) speed |};
  {| setter := SetNewSpeed; section := m_stateSection;
     stores := λ p v, m_newSpeed p = v;
     mirror := λ p speed, CDataCacheCore.SetSpeed (m_tempo p) speed |};
  {| setter := SetFrameAdvance; section := m_stateSection;
     stores := λ p v, m_frameAdvance p = v;
     mirror := λ _, CDataCacheCore.SetFrameAdvance |};
  {| setter := SetTempo; section := m_stateSection;
     stores := λ p v, m_tempo p = v ∧ m_newTempo p = v;
     mirror := λ p tempo, CDataCacheCore.SetSpeed tempo (m_newSpeed p) |};
  {| setter := SetNewTempo; section := m_stateSection;
     stores := λ p v, m_newTempo p = v;
     mirror := λ p tempo, CDataCacheCore.SetSpeed tempo (m_speed p) |};
  {| setter := λ v, SetPlayTimes v.1.1.1 v.1.1.2 v.1.2 v.2;
     section := m_stateSection;
     stores := λ p v, (m_startTime p, m_time p, m_timeMin p, m_timeMax p) = v;
     mirror := λ _ v, CDataCacheCore.SetPlayTimes v.1.1.1 v.1.1.2 v.1.2 v.2 |}
].

(** The two setters that forward only a change of the stored flag. *)
Definition changed (old new : bool) : bool := negb (Bool.eqb old new).

(** Setters that only assign. *)
Record StoringSetter : Type := {
  s_value : Type;
  s_setter : s_value → Method ();
  s_section : CCriticalSection;
  s_stores : CProcessInfo → s_value → Prop;
}.

Definition storing_setters : list StoringSetter := [
  {| s_setter := SetStateRealtime; s_section := m_renderSection;
     s_stores := λ p v, m_realTimeStream p = v |};
  {| s_setter := SetDeinterlacingMethodDefault;
     s_section := m_videoCodecSection;
     s_stores := λ p v, m_deintMethodDefault p = v |};
  {| s_setter := SetPixFormats; s_section := m_videoCodecSection;
     s_stores := λ p v, m_pixFormats p = v |};
  {| s_setter := λ v, UpdateRenderBuffers v.1.1 v.1.2 v.2;
     s_section := m_renderSection;
     s_stores := λ p v,
       (m_renderBufQueued p, m_renderBufDiscard p, m_renderBufFree p) = v |};
  {| s_setter := SetVideoSettings; s_section := m_settingsSection;
     s_stores := λ p v, m_videoSettings p = v |}
].

(** A setter, a getter, and the part of the setter's argument that the
    getter is meant to hand back. *)
Record AccessorPair : Type := {
  a_value : Type;
  a_result : Type;
  a_setter : a_value → Method ();
  a_getter : Method a_result;
  a_passed : a_value → a_result;
}.

Definition same {A} (a : A) : A := a.

(** Every setter/getter pair of the class except [SetPixFormats] /
    [GetPixFormats]. *)
Definition accessor_pairs : list AccessorPair := [
  {| a_setter := SetVideoPts; a_getter := GetVideoPts; a_passed := same |};
  {| a_setter := λ v, SetVideoDecoderName v.1 v.2;
     a_getter := GetVideoDecoderName; a_passed := fst |};
  {| a_setter := λ v, SetVideoDecoderName v.1 v.2;
     a_getter := IsVideoHwDecoder; a_passed := snd |};
  {| a_setter := SetVideoDeintMethod; a_getter := GetVideoDeintMethod;
     a_passed := same |};
  {| a_setter := SetVideoPixelFormat; a_getter := GetVideoPixelFormat;
     a_passed := same |};
  {| a_setter := SetVideoStereoMode; a_getter := GetVideoStereoMode;
     a_passed := same |};
  {| a_setter := λ v, SetVideoDimensions v.1 v.2;
     a_getter := GetVideoDimensions; a_passed := same |};
  {| a_setter := SetVideoBitDepth; a_getter := GetVideoBitDepth;
     a_passed := same |};
  {| a_setter := SetVideoHdrType; a_getter := GetVideoHdrType;
     a_passed := same |};
  {| a_setter := SetVideoSourceHdrType; a_getter := GetVideoSourceHdrType;
     a_passed := same |};
  {| a_setter := SetVideoSourceAdditionalHdrType;
     a_getter := GetVideoSourceAdditionalHdrType; a_passed := same |};
  {| a_setter := SetVideoColorSpace; a_getter := GetVideoColorSpace;
     a_passed := same |};
  {| a_setter := SetVideoColorRange; a_getter := GetVideoColorRange;
     a_passed := same |};
  {| a_setter := SetVideoColorPrimaries; a_getter := GetVideoColorPrimaries;
     a_passed := same |};
  {| a_setter := SetVideoColorTransferCharacteristic;
     a_getter := GetVideoColorTransferCharacteristic; a_passed := same |};
  {| a_setter := SetVideoDoViFrameMetadata;
     a_getter := GetVideoDoViFrameMetadata; a_passed := same |};
  {| a_setter := SetVideoDoViStreamMetadata;
     a_getter := GetVideoDoViStreamMetadata; a_passed := same |};
  {| a_setter := SetVideoDoViStreamInfo; a_getter := GetVideoDoViStreamInfo;
     a_passed := same |};
  {| a_setter := SetVideoSourceDoViStreamInfo;
     a_getter := GetVideoSourceDoViStreamInfo; a_passed := same |};
  {| a_setter := SetVideoDoViCodecFourCC; a_getter := GetVideoDoViCodecFourCC;
     a_passed := same |};
  {| a_setter := SetVideoHDRStaticMetadataInfo;
     a_getter := GetVideoHDRStaticMetadataInfo; a_passed := same |};
  {| a_setter := SetVideoVS10Mode; a_getter := GetVideoVS10Mode;
     a_passed := same |};
  {| a_setter := SetVideoLiveBitRate; a_getter := GetVideoLiveBitRate;
     a_passed := same |};
  {| a_setter := SetVideoQueueLevel; a_getter := GetVideoQueueLevel;
     a_passed := same |};
  {| a_setter := SetVideoQueueDataLevel; a_getter := GetVideoQueueDataLevel;
     a_passed := same |};
  {| a_setter := SetVideoFps; a_getter := GetVideoFps; a_passed := same |};
  {| a_setter := SetVideoDAR; a_getter := GetVideoDAR; a_passed := same |};
  {| a_setter := SetVideoInterlaced; a_getter := GetVideoInterlaced;
     a_passed := same |};
  {| a_setter := SetDeinterlacingMethodDefault;
     a_getter := GetDeinterlacingMethodDefault; a_passed := same |};
  {| a_setter := SetAudioDecoderName; a_getter := GetAudioDecoderName;
     a_passed := same |};
  {| a_setter := SetAudioChannels; a_getter := GetAudioChannels;
     a_passed := same |};
  {| a_setter := SetAudioSampleRate; a_getter := GetAudioSampleRate;
     a_passed := same |};
  {| a_setter := SetAudioBitsPerSample; a_getter := GetAudioBitsPerSample;
     a_passed := same |};
  {| a_setter := SetAudioIsDolbyAtmos; a_getter := GetAudioIsDolbyAtmos;
     a_passed := same |};
  {| a_setter := SetAudioDtsXType; a_getter := GetAudioDtsXType;
     a_passed := same |};
  {| a_setter := SetAudioLiveBitRate; a_getter := GetAudioLiveBitRate;
     a_passed := same |};
  {| a_setter := SetAudioQueueLevel; a_getter := GetAudioQueueLevel;
     a_passed := same |};
  {| a_setter := SetAudioQueueDataLevel; a_getter := GetAudioQueueDataLevel;
     a_passed := same |};
  {| a_setter := SetRenderClockSync; a_getter := IsRenderClockSync;
     a_passed := same |};
  {| a_setter := λ v, UpdateRenderBuffers v.1.1 v.1.2 v.2;
     a_getter := GetRenderBuffers; a_passed := same |};
  {| a_setter := SetStateSeeking; a_getter := IsSeeking; a_passed := same |};
  {| a_setter := SetStateRealtime; a_getter := IsRealtimeStream;
     a_passed := same |};
  {| a_setter := SetSpeed; a_getter := GetNewSpeed; a_passed := same |};
  {| a_setter := SetNewSpeed; a_getter := GetNewSpeed; a_passed := same |};
  {| a_setter := SetFrameAdvance; a_getter := IsFrameAdvance;
     a_passed := same |};
  {| a_setter := SetTempo; a_getter := GetNewTempo; a_passed := same |};
  {| a_setter := SetNewTempo; a_getter := GetNewTempo; a_passed := same |};
  {| a_setter := SetLevelVQ; a_getter := GetLevelVQ; a_passed := same |};
  {| a_setter := SetGuiRender; a_getter := GetGuiRender; a_passed := same |};
  {| a_setter := SetVideoRender; a_getter := GetVideoRender;
     a_passed := same |};
  {| a_setter := λ v, SetPlayTimes v.1.1.1 v.1.1.2 v.1.2 v.2;
     a_getter := GetMaxTime; a_passed := snd |};
  {| a_setter := SetVideoSettings; a_getter := GetVideoSettings;
     a_passed := same |}
].

(** A member function with its arguments bundled. *)
Record Operation : Type := {
  arguments : Type;
  run : arguments → Method ();
}.

(** Every member function other than [SetDataCache] whose body contains a
    call through [m_dataCache]. *)
Definition mirroring_operations : list Operation :=
  (map (λ s, {| run := setter s |}) mirroring_setters ++ [
    {| run := SetGuiRender |};
    {| run := SetVideoRender |};
    {| run := SeekFinished |};
    {| run := λ _ : (), ResetVideoCodecInfo |};
    {| run := λ _ : (), ResetAudioCodecInfo |}
  ])%list.

(** The merge that [UpdateDeinterlacingMethods] and [UpdateRenderInfo]
    perform: each method the renderer reports is appended to the list
    unless the list has it by then. *)
Definition merge_render_methods (methods render : list EINTERLACEMETHOD)
  : list EINTERLACEMETHOD :=
  foldl (λ acc deint,
           if bool_decide (deint ∈ acc) then acc else push_back deint acc)
        methods render.

(** The body of the loop over the renderer's methods, which
    [UpdateDeinterlacingMethods] and [UpdateRenderInfo] share. *)
Definition append_unsupported (deint : EINTERLACEMETHOD) : Method () :=
  s ← Supports deint;
  when (negb s) (store (λ p, p<|m_deintMethods ::= push_back deint|>)).

(** The last step of [UpdateDeinterlacingMethods] on the merged list. *)
Definition with_NONE (merged : list EINTERLACEMETHOD)
  : list EINTERLACEMETHOD :=
  if bool_decide (VS_INTERLACEMETHOD_NONE ∈ merged) then merged
  else push_front VS_INTERLACEMETHOD_NONE merged.

(** The lock events of one [Supports] call per method of the renderer. *)
Definition Supports_locks (render : list EINTERLACEMETHOD) : list Event :=
  mjoin (map (λ _, [Acquire m_videoCodecSection;
                    Release m_videoCodecSection]) render).

(** ** Properties of accessors, as predicates *)


(** A getter called right after a setter hands back what was set. *)
Definition set_then_get {A} (set : A → Method ()) (get : Method A) : Prop :=
  ∀ v σ, ∃ σ', (set v;; get) σ = Returned v σ'.

Definition reads_back (a : AccessorPair) : Prop :=
  ∀ v σ, ∃ σ', (a_setter a v;; a_getter a) σ = Returned (a_passed a v) σ'.



(** A setter of a render-layer flag: the call is made only if the flag
    changes, and then only if a cache is bound. *)
Definition mirrors_changes (flag : CProcessInfo → bool)
    (set : bool → Method ()) (call : bool → CDataCacheCore.call) : Prop :=
  ∀ v σ, ∃ σ',
    set v σ = Returned () σ'
    ∧ flag (this σ') = v
    ∧ m_dataCache (this σ') = m_dataCache (this σ)
    ∧ trace σ' =
        (trace σ ++
         Acquire m_stateSection
           :: (if changed (flag (this σ)) v
               then forwarded (m_dataCache (this σ)) (call v) else [])
           ++ [Release m_stateSection])%list
    ∧ (bound_cache_holds σ (call (flag (this σ))) →
       bound_cache_holds σ' (call v)).

(** The operation returns whatever [m_dataCache] is, and calls no cache
    when it is null. *)
Definition guards_dataCache (op : Operation) : Prop :=
  ∀ args σ, ∃ σ',
    run op args σ = Returned () σ'
    ∧ (m_dataCache (this σ) = nullptr →
       cache_calls (trace σ') = cache_calls (trace σ)).

(** The calls that [ResetVideoCodecInfo] makes on a bound cache, in order,
    with the values the members have by then. *)
Definition reset_video_calls : list CDataCacheCore.call := [
  CDataCacheCore.SetVideoPts fp_zero;
  CDataCacheCore.SetVideoDecoderName "unknown" false;
  CDataCacheCore.SetVideoDeintMethod "unknown";
  CDataCacheCore.SetVideoPixelFormat "unknown";
  CDataCacheCore.SetVideoDimensions 0 0;
  CDataCacheCore.SetVideoFps fp_zero;
  CDataCacheCore.SetVideoDAR fp_zero;
  CDataCacheCore.SetStateSeeking false;
  CDataCacheCore.SetVideoStereoMode "";
  CDataCacheCore.SetVideoBitDepth 0;
  CDataCacheCore.SetVideoHdrType HDR_TYPE_NONE;
  CDataCacheCore.SetVideoSourceHdrType HDR_TYPE_NONE;
  CDataCacheCore.SetVideoSourceAdditionalHdrType HDR_TYPE_NONE;
  CDataCacheCore.SetVideoColorSpace AVCOL_SPC_UNSPECIFIED;
  CDataCacheCore.SetVideoColorRange AVCOL_RANGE_UNSPECIFIED;
  CDataCacheCore.SetVideoColorPrimaries AVCOL_PRI_UNSPECIFIED;
  CDataCacheCore.SetVideoColorTransferCharacteristic AVCOL_TRC_UNSPECIFIED;
  CDataCacheCore.SetVideoDoViFrameMetadata DOVIFrameMetadata_init;
  CDataCacheCore.SetVideoDoViStreamInfo DOVIStreamInfo_init;
  CDataCacheCore.SetVideoSourceDoViStreamInfo DOVIStreamInfo_init;
  CDataCacheCore.SetVideoDoViCodecFourCC "";
  CDataCacheCore.SetVideoHDRStaticMetadataInfo HDRStaticMetadataInfo_init;
  CDataCacheCore.SetVideoVS10Mode DOLBY_VISION_OUTPUT_MODE_BYPASS;
  CDataCacheCore.SetVideoLiveBitRate fp_zero;
  CDataCacheCore.SetVideoQueueLevel 0;
  CDataCacheCore.SetVideoQueueDataLevel 0
].

(** The members that [ResetVideoCodecInfo] assigns have the values it
    assigns. *)
Definition reset_video_members (p : CProcessInfo) : Prop :=
  m_videoPts p = fp_zero
  ∧ m_videoIsHWDecoder p = false
  ∧ m_videoDecoderName p = "unknown"
  ∧ m_videoDeintMethod p = "unknown"
  ∧ m_videoPixelFormat p = "unknown"
  ∧ m_videoStereoMode p = ""
  ∧ m_videoWidth p = 0
  ∧ m_videoHeight p = 0
  ∧ m_videoFPS p = fp_zero
  ∧ m_videoDAR p = fp_zero
  ∧ m_videoBitDepth p = 0
  ∧ m_videoHdrType p = HDR_TYPE_NONE
  ∧ m_videoSourceHdrType p = HDR_TYPE_NONE
  ∧ m_videoSourceAdditionalHdrType p = HDR_TYPE_NONE
  ∧ m_videoColorSpace p = AVCOL_SPC_UNSPECIFIED
  ∧ m_videoColorRange p = AVCOL_RANGE_UNSPECIFIED
  ∧ m_videoColorPrimaries p = AVCOL_PRI_UNSPECIFIED
  ∧ m_videoColorTransferCharacteristic p = AVCOL_TRC_UNSPECIFIED
  ∧ m_videoDoViFrameMetadata p = DOVIFrameMetadata_init
  ∧ m_videoDoViStreamInfo p = DOVIStreamInfo_init
  ∧ m_videoSourceDoViStreamInfo p = DOVIStreamInfo_init
  ∧ m_videoDoViCodecFourCC p = ""
  ∧ m_videoHDRStaticMetadataInfo p = HDRStaticMetadataInfo_init
  ∧ m_videoVS10Mode p = DOLBY_VISION_OUTPUT_MODE_BYPASS
  ∧ m_videoLiveBitRate p = fp_zero
  ∧ m_videoQueueLevel p = 0
  ∧ m_videoQueueDataLevel p = 0
  ∧ m_videoIsInterlaced p = false
  ∧ m_deintMethods p = [VS_INTERLACEMETHOD_NONE]
  ∧ m_deintMethodDefault p = VS_INTERLACEMETHOD_NONE
  ∧ m_stateSeeking p = false.

(** ** Further descriptions of what member functions do *)

(** The calls that [ResetAudioCodecInfo] makes on a bound cache, in order,
    with the values the members have by then. *)
Definition reset_audio_calls : list CDataCacheCore.call := [
  CDataCacheCore.SetAudioDecoderName "unknown";
  CDataCacheCore.SetAudioChannels "unknown";
  CDataCacheCore.SetAudioSampleRate 0;
  CDataCacheCore.SetAudioBitsPerSample 0;
  CDataCacheCore.SetAudioIsDolbyAtmos false;
  CDataCacheCore.SetAudioDtsXType DTS_X_NONE;
  CDataCacheCore.SetAudioLiveBitRate fp_zero;
  CDataCacheCore.SetAudioQueueLevel 0;
  CDataCacheCore.SetAudioQueueDataLevel 0
].

Definition reset_audio_members (p : CProcessInfo) : Prop :=
  m_audioDecoderName p = "unknown"
  ∧ m_audioChannels p = "unknown"
  ∧ m_audioSampleRate p = 0
  ∧ m_audioBitsPerSample p = 0
  ∧ m_audioIsDolbyAtmos p = false
  ∧ m_audioDtsXType p = DTS_X_NONE
  ∧ m_audioLiveBitRate p = fp_zero
  ∧ m_audioQueueLevel p = 0
  ∧ m_audioQueueDataLevel p = 0.

(** The events of a bound cache receiving [calls] inside [section]. *)
Definition mirrored_inside (section : CCriticalSection) (dataCache : pointer)
    (calls : list CDataCacheCore.call) : list Event :=
  Acquire section
    :: match dataCache with
       | Some cache => map (DataCache cache) calls
       | None => []
       end
    ++ [Release section].

(** ** Further predicates *)

(** [a <= b] on floating point values. *)
Definition fp_le (a b : spec_float) : bool := SFleb a b.

(** [1.0f] *)
Definition normal_tempo : float := S754_finite false 8388608 (-23).

(** Both render-layer flags of the bound cache are what the object
    stores. *)
Definition render_flags_in_step (σ : Machine) : Prop :=
  bound_cache_holds σ (CDataCacheCore.SetGuiRender (m_renderGuiLayer (this σ)))
  ∧ bound_cache_holds σ
      (CDataCacheCore.SetVideoRender (m_renderVideoLayer (this σ))).

(** One call of a render-layer setter: [(true, v)] stands for
    [SetGuiRender(v)], [(false, v)] for [SetVideoRender(v)]. *)
Definition set_render_flag (call : bool * bool) : Method () :=
  if call.1 then SetGuiRender call.2 else SetVideoRender call.2.

(** The operation returns and keeps [P]. *)
Definition preserves (P : Machine → Prop) (op : Operation) : Prop :=
  ∀ args σ, P σ → ∃ σ', run op args σ = Returned () σ' ∧ P σ'.

(** Replays the events of a call against the stack of sections held,
    innermost first.  The result is [None] if a section is released that
    is not the innermost one held, or if a section is still held at the
    end.  Otherwise it lists every pair (held, acquired) of a section
    acquired while another acquisition was still held, and every cache
    call made while no section was held. *)
Fixpoint lock_replay (held : list CCriticalSection) (events : list Event)
  : option (list (CCriticalSection * CCriticalSection)
            * list (address * CDataCacheCore.call)) :=
  match events with
  | [] => match held with [] => Some ([], []) | _ :: _ => None end
  | Acquire s :: rest =>
      match lock_replay (s :: held) rest with
      | Some r => Some ((map (λ h, (h, s)) held ++ r.1)%list, r.2)
      | None => None
      end
  | Release s :: rest =>
      match held with
      | h :: held' =>
          if bool_decide (h = s) then lock_replay held' rest else None
      | [] => None
      end
  | DataCache cache c :: rest =>
      match lock_replay held rest with
      | Some r =>
          Some (r.1, match held with
                     | [] => (cache, c) :: r.2
                     | _ :: _ => r.2
                     end)
      | None => None
      end
  end.

(** The nestings of critical sections that occur. *)
Definition nestings : list (CCriticalSection * CCriticalSection) :=
  [(m_renderSection, m_videoCodecSection);
   (m_videoCodecSection, m_videoCodecSection)].

(** A call whose result is dropped. *)
Definition discard {A} (m : Method A) : Method () :=
  mbind (M := Method) (λ _, mret ()) m.

(** A getter with its result dropped. *)
Definition call_getter (a : AccessorPair) : Operation :=
  {| run := λ _ : (), discard (a_getter a) |}.

(** Every member function of the class that the model has, other than
    [SetDataCache]. *)
Definition locking_operations : list Operation :=
  (mirroring_operations
   ++ map (λ s, {| run := s_setter s |}) storing_setters
   ++ map call_getter accessor_pairs
   ++ [ {| run := SetLevelVQ |};
        {| run := λ _ : (), discard GetPixFormats |};
        {| run := λ method, discard (Supports method) |};
        {| run := UpdateDeinterlacingMethods |};
        {| run := UpdateRenderInfo |};
        {| run := λ _ : (), SetSwDeinterlacingMethods |} ])%list.

(** The call holds sections in a last-in first-out manner, holds none
    when it returns, nests them only as [nestings] lists, and makes every
    cache call while it holds a section. *)
Definition disciplined (op : Operation) : Prop :=
  ∀ args σ, ∃ σ' pairs,
    run op args σ = Returned () σ'
    ∧ lock_replay [] (appended σ σ') = Some (pairs, [])
    ∧ Forall (λ pair, pair ∈ nestings) pairs.

End Aggregator.

Arguments Returned {_ A} result after.
Arguments NullDereference {_ A}.

(** ** The registry of creation callbacks

    [m_processControls] is a static [std::map] from an id to a callback
    that returns a [CProcessInfo*]; [RegisterProcessControl] and
    [CreateInstance] run under the global [createSection]. *)

Definition CreateProcessControl : Type := () → pointer.

Definition clear (m : gmap string CreateProcessControl)
  : gmap string CreateProcessControl := ∅.

Definition RegisterProcessControl (id : string)
    (createFunc : CreateProcessControl)
    (m_processControls : gmap string CreateProcessControl)
  : gmap string CreateProcessControl :=
  let m_processControls := clear m_processControls in
  <[id := createFunc]> m_processControls.

(** A [std::map] is traversed in ascending key order. *)
Definition key_le (a b : string * CreateProcessControl) : Prop :=
  String.le a.1 b.1.

#[global] Instance key_le_dec : RelDecision key_le.
Proof. intros a b. unfold key_le. apply _. Defined.

Definition in_key_order (m : gmap string CreateProcessControl)
  : list (string * CreateProcessControl) :=
  merge_sort key_le (map_to_list m).

(** What [CreateInstance] returns: the object a callback made, or a fresh
    plain [CProcessInfo]. *)
Inductive Created : Type :=
| ByCallback (ret : address)
| NewCProcessInfo.

(** The loop of [CreateInstance] over the entries, with the ids of the
    callbacks it has called. *)
Fixpoint first_created (range : list (string * CreateProcessControl))
  : list string * Created :=
  match range with
  | [] => ([], NewCProcessInfo)
  | info :: rest =>
      match info.2 () with
      | Some ret => ([info.1], ByCallback ret)
      | None =>
          let r := first_created rest in (info.1 :: r.1, r.2)
      end
  end.

Definition CreateInstance
    (m_processControls : gmap string CreateProcessControl)
  : list string * Created :=
  first_created (in_key_order m_processControls).

(** The registry after a sequence of registrations, starting from the
    empty map that static initialisation leaves. *)
Definition registrations (earlier : list (string * CreateProcessControl))
  : gmap string CreateProcessControl :=
  foldl (λ m r, RegisterProcessControl r.1 r.2 m) ∅ earlier.

(** ** A concrete choice of the external declarations

    Used to run the definitions on closed inputs.  Enumerations are
    numbered; the metadata structs are stood in for by one number each. *)

Definition demo : Externals := {|
  StreamHdrType := Z; HDR_TYPE_NONE := 0;
  AVColorSpace := Z; AVCOL_SPC_UNSPECIFIED := 2;
  AVColorRange := Z; AVCOL_RANGE_UNSPECIFIED := 0;
  AVColorPrimaries := Z; AVCOL_PRI_UNSPECIFIED := 2;
  AVColorTransferCharacteristic := Z; AVCOL_TRC_UNSPECIFIED := 2;
  DOVIFrameMetadata := Z; DOVIFrameMetadata_init := 0;
  DOVIStreamMetadata := Z; DOVIStreamMetadata_init := 0;
  DOVIStreamInfo := Z; DOVIStreamInfo_init := 0;
  HDRStaticMetadataInfo := Z; HDRStaticMetadataInfo_init := 0;
  DOLBY_VISION_OUTPUT_MODE_BYPASS := 5;
  DtsXType := Z; DTS_X_NONE := 0;
  EINTERLACEMETHOD := Z;
  VS_INTERLACEMETHOD_NONE := 0;
  VS_INTERLACEMETHOD_DEINTERLACE := 16;
  VS_INTERLACEMETHOD_DEINTERLACE_HALF := 17;
  AVPixelFormat := Z; AV_PIX_FMT_YUV420P := 0;
  CVideoSettings := Z;
  CRenderInfo := list Z;
  CRenderInfo_m_deintMethods := λ info, info;
|}.

#[local] Arguments Build_CProcessInfo {_} & _.

(** An object with every member zero, empty or false, no cache bound, and
    a renderer that reports the methods in [render]. *)
Definition demo_object (render : list Z) : @CProcessInfo demo := {|
  m_dataCache := nullptr;
  m_videoPts := fp_zero; m_videoIsHWDecoder := false;
  m_videoDecoderName := ""; m_videoDeintMethod := "";
  m_videoPixelFormat := ""; m_videoStereoMode := "";
  m_videoWidth := 0; m_videoHeight := 0;
  m_videoFPS := fp_zero; m_videoDAR := fp_zero; m_videoBitDepth := 0;
  m_videoHdrType := 0; m_videoSourceHdrType := 0;
  m_videoSourceAdditionalHdrType := 0;
  m_videoColorSpace := 0; m_videoColorRange := 0;
  m_videoColorPrimaries := 0; m_videoColorTransferCharacteristic := 0;
  m_videoDoViFrameMetadata := 0; m_videoDoViStreamMetadata := 0;
  m_videoDoViStreamInfo := 0; m_videoSourceDoViStreamInfo := 0;
  m_videoDoViCodecFourCC := ""; m_videoHDRStaticMetadataInfo := 0;
  m_videoVS10Mode := 0; m_videoLiveBitRate := fp_zero;
  m_videoQueueLevel := 0; m_videoQueueDataLevel := 0;
  m_videoIsInterlaced := false;
  m_deintMethods := []; m_deintMethodDefault := 0; m_pixFormats := [];
  m_audioDecoderName := ""; m_audioChannels := "";
  m_audioSampleRate := 0; m_audioBitsPerSample := 0;
  m_audioIsDolbyAtmos := false; m_audioDtsXType := 0;
  m_audioLiveBitRate := fp_zero;
  m_audioQueueLevel := 0; m_audioQueueDataLevel := 0;
  m_isClockSync := false; m_renderInfo := render;
  m_renderBufQueued := 0; m_renderBufDiscard := 0; m_renderBufFree := 0;
  m_stateSeeking := false; m_realTimeStream := false;
  m_speed := fp_zero; m_newSpeed := fp_zero; m_frameAdvance := false;
  m_tempo := fp_zero; m_newTempo := fp_zero; m_levelVQ := 0;
  m_renderGuiLayer := false; m_renderVideoLayer := false;
  m_startTime := 0; m_time := 0; m_timeMin := 0; m_timeMax := 0;
  m_videoSettings := 0;
|}.

Definition demo_machine (render : list Z) : @Machine demo :=
  {| this := demo_object render; trace := [] |}.


(** A playback session as the player drives it: bind the cache, receive
    stream metadata and an interlaced frame, then reset for the next
    stream. *)
Definition demo_session : @Method demo () :=
  SetDataCache (Some 1%N);;
  SetVideoDoViStreamMetadata (7 : @DOVIStreamMetadata demo);;
  SetVideoInterlaced true;;
  ResetVideoCodecInfo.

(** ** The decoder binding: inline members of [CAMLCodec]

    From [xbmc/cores/VideoPlayer/DVDCodecs/Video/AMLCodec.h]; the other
    member functions are only declared there. *)

Definition uint64_t := Z.
Definition uint32_t := Z.

(** The members of [CAMLCodec] that its inline member functions touch. *)
Record CAMLCodec : Type := {
  m_drain : bool;
  m_cur_pts : uint64_t;
  m_bufferIndex : uint32_t;
}.

(** [static_cast<int>(x)] for an unsigned 64-bit [x]: the value modulo
    2^32, read as a two's complement 32-bit integer (what C++20 requires
    and what the compilers for this platform did before). *)
Definition static_cast_int (x : Z) : Z :=
  (x + 2 ^ 31) mod 2 ^ 32 - 2 ^ 31.

Definition SetDrain (drain : bool) (codec : CAMLCodec) : CAMLCodec :=
  {| m_drain := drain;
     m_cur_pts := m_cur_pts codec;
     m_bufferIndex := m_bufferIndex codec |}.

Definition GetOMXPts (codec : CAMLCodec) : Z :=
  static_cast_int (m_cur_pts codec).

Definition GetBufferIndex (codec : CAMLCodec) : uint32_t :=
  m_bufferIndex codec.

(** A decoder whose pts has just passed 2^31. *)
Definition late_codec : CAMLCodec :=
  {| m_drain := false; m_cur_pts := 2 ^ 31 + 90000; m_bufferIndex := 0 |}.

(** Advanced settings with a configured maximum tempo of [2.0f] and of
    [3.0f], and the tempo [1.75f]. *)
Definition demo_settings_2 : CAdvancedSettings :=
  {| m_maxTempo := S754_finite false 8388608 (-22);
     m_maxPassthroughOffSyncDuration := 10 |}.

Definition demo_settings_3 : CAdvancedSettings :=
  {| m_maxTempo := S754_finite false 12582912 (-22);
     m_maxPassthroughOffSyncDuration := 10 |}.

Definition demo_tempo : float := S754_finite false 14680064 (-23).

(** ** The values of floating point data

    The comparisons of the code are the IEEE-754 ones of [SpecFloat]; the
    limits that the description of [IsTempoAllowed] names are numbers.
    The two are related through the value that a datum stands for. *)

(** What a floating point datum stands for: no number, an infinity, or
    the fraction [± m * 2^e]. *)
Inductive Value : Type :=
  | NotANumber
  | MinusInfinity
  | Finite (q : Q)
  | PlusInfinity.

Definition value_of (f : spec_float) : Value :=
  match f with
  | S754_nan => NotANumber
  | S754_infinity true => MinusInfinity
  | S754_infinity false => PlusInfinity
  | S754_zero _ => Finite 0
  | S754_finite s m e =>
      Finite (inject_Z (if s then Z.neg m else Z.pos m) * 2 ^ e)
  end.

(** The order of the values; nothing is below or above [NotANumber]. *)
Definition value_lt (a b : Value) : Prop :=
  match a, b with
  | MinusInfinity, (Finite _ | PlusInfinity) => True
  | Finite _, PlusInfinity => True
  | Finite x, Finite y => (x < y)%Q
  | _, _ => False
  end.

(** The larger of two values, where one that is not a number does not
    count. *)
Definition larger (a b : Value) : Value :=
  match a, b with
  | NotANumber, v | v, NotANumber => v
  | PlusInfinity, _ | _, PlusInfinity => PlusInfinity
  | MinusInfinity, v | v, MinusInfinity => v
  | Finite x, Finite y => Finite (Qmax x y)
  end.

(** The data that a C++ [float] can hold. *)
Definition binary32 (f : spec_float) : Prop := valid_binary 24 128 f = true.

(** Modelled from the spec: a tempo is allowed when it is strictly greater
    than 0.75 and strictly less than 1.55 or than the configured
    maximum, the limits being the decimal numbers. *)
Definition allowed_by_decimal_limits (maxTempo tempo : float) : Prop :=
  value_lt (Finite (75 # 100)) (value_of tempo)
  ∧ (value_lt (value_of tempo) (Finite (155 # 100))
     ∨ value_lt (value_of tempo) (value_of maxTempo)).

(** Advanced settings whose configured maximum is [1.55f], and the tempo
    [1.55f]. *)
Definition demo_settings_1_55 : CAdvancedSettings :=
  {| m_maxTempo := S754_finite false 13002342 (-23);
     m_maxPassthroughOffSyncDuration := 10 |}.

Definition demo_tempo_1_55 : float := S754_finite false 13002342 (-23).

(** * Properties *)

(** Runs a member function on a machine whose object is taken apart into
    its members, for both values of [m_dataCache]. *)
Ltac run_method :=
  match goal with
  | σ : Machine |- _ =>
      let p := fresh "p" in
      let t := fresh "t" in
      destruct σ as [p t]; destruct p as [dataCache]; destruct dataCache;
      cbv -[Bool.eqb app last_call cache_calls drop length bool_decide];
      repeat match goal with
             | |- context [Bool.eqb ?a ?b] =>
                 destruct a; destruct b;
                 cbv -[app last_call cache_calls drop length bool_decide]
             end
  end.

(** Goes through a table of accessors entry by entry. *)
Ltac each_entry :=
  repeat apply Forall_cons_2; try apply Forall_nil_2;
  intros v σ; cbn in v;
  repeat match goal with v : (_ * _)%type |- _ => destruct v end.

(** Order facts about [SFcompare], by cases on signs, exponents and
    mantissas. *)
Ltac fp_order :=
  repeat match goal with
  | s : bool |- _ => destruct s
  | H : context [Z.compare ?a ?b] |- _ => destruct (Z.compare_spec a b)
  | |- context [Z.compare ?a ?b] => destruct (Z.compare_spec a b)
  | H : context [Pos.compare_cont Eq ?a ?b] |- _ =>
      change (Pos.compare_cont Eq a b) with (Pos.compare a b) in H;
      destruct (Pos.compare_spec a b)
  | |- context [Pos.compare_cont Eq ?a ?b] =>
      change (Pos.compare_cont Eq a b) with (Pos.compare a b);
      destruct (Pos.compare_spec a b)
  | _ => progress (cbn in *; subst)
  end; try first [congruence | lia].

Section Properties.
Context `{Externals}.

(** ** The monad and the trace *)

Lemma bind_Returned {A B} (m : Method A) (f : A → Method B) σ a σ' :
  m σ = Returned a σ' → (m ≫= f) σ = f a σ'.
Proof. unfold mbind, Method_bind. by intros ->. Qed.

Lemma last_call_app cache member t t' :
  last_call cache member (t ++ t') =
    match last_call cache member t' with
    | Some c => Some c
    | None => last_call cache member t
    end.
Proof.
  induction t as [|e t IH]; cbn.
  - by destruct (last_call cache member t').
  - rewrite IH. by destruct (last_call cache member t').
Qed.

Lemma cache_holds_last cache c t :
  cache_holds cache c (t ++ [DataCache cache c]).
Proof.
  unfold cache_holds. rewrite last_call_app. cbn.
  by rewrite bool_decide_eq_true_2.
Qed.

Lemma cache_holds_before cache c t e :
  (∀ c', e = DataCache cache c' →
         CDataCacheCore.member c' ≠ CDataCacheCore.member c) →
  cache_holds cache c t → cache_holds cache c (t ++ [e]).
Proof.
  unfold cache_holds. intros other held. rewrite last_call_app. cbn.
  destruct e as [| |a c']; try done.
  case_bool_decide as same; [|done].
  destruct same as [-> same]. by destruct (other c' eq_refl).
Qed.

Lemma cache_calls_app t t' :
  cache_calls (t ++ t') = (cache_calls t ++ cache_calls t')%list.
Proof. apply omap_app. Qed.

Lemma cache_calls_Supports_locks render :
  cache_calls (Supports_locks render) = [].
Proof. by induction render. Qed.

(** ** Setters and the cache *)


Lemma SetGuiRender_mirrors_changes :
  mirrors_changes m_renderGuiLayer SetGuiRender CDataCacheCore.SetGuiRender.
Proof.
  intros v σ.
  run_method; eexists; (split; [reflexivity|]); cbn;
    (split; [done|]); (split; [done|]);
    (split; [rewrite <- ?app_assoc; reflexivity|]);
    unfold bound_cache_holds, cache_holds; cbn; rewrite <- ?app_assoc;
    try done; rewrite last_call_app; cbn; try done;
    by rewrite bool_decide_eq_true_2.
Qed.

Lemma SetVideoRender_mirrors_changes :
  mirrors_changes m_renderVideoLayer SetVideoRender
    CDataCacheCore.SetVideoRender.
Proof.
  intros v σ.
  run_method; eexists; (split; [reflexivity|]); cbn;
    (split; [done|]); (split; [done|]);
    (split; [rewrite <- ?app_assoc; reflexivity|]);
    unfold bound_cache_holds, cache_holds; cbn; rewrite <- ?app_assoc;
    try done; rewrite last_call_app; cbn; try done;
    by rewrite bool_decide_eq_true_2.
Qed.



(** ** Tempo limits *)

Lemma platform_tempos_are_binary32 :
  binary32 MinTempoPlatform ∧ binary32 MaxTempoPlatform.
Proof. split; reflexivity. Qed.

Lemma digits2_pos_bounds m :
  (2 ^ (Z.pos (digits2_pos m) - 1) ≤ Z.pos m < 2 ^ Z.pos (digits2_pos m))%Z.
Proof.
  induction m as [m IH|m IH|]; cbn [digits2_pos];
    rewrite ?Pos2Z.inj_succ; [| |cbn; lia].
  - replace (Z.succ (Z.pos (digits2_pos m)) - 1)
      with (Z.succ (Z.pos (digits2_pos m) - 1)) by lia.
    rewrite !Z.pow_succ_r by lia. lia.
  - replace (Z.succ (Z.pos (digits2_pos m)) - 1)
      with (Z.succ (Z.pos (digits2_pos m) - 1)) by lia.
    rewrite !Z.pow_succ_r by lia. lia.
Qed.

Lemma bounded_mantissa m e :
  bounded 24 128 m e = true →
  (-149 ≤ e ∧ Z.pos m < 2 ^ 24 ∧ (-149 < e → 2 ^ 23 ≤ Z.pos m))%Z.
Proof.
  unfold bounded, canonical_mantissa, fexp, emin.
  intros [canonical _]%andb_true_iff. apply Z.eqb_eq in canonical.
  pose proof (digits2_pos_bounds m) as [low high].
  set (d := Z.pos (digits2_pos m)) in *.
  assert (d ≤ 24)%Z as short by lia.
  split; [lia|]. split.
  - apply Z.lt_le_trans with (2 ^ d); [done|].
    apply Z.pow_le_mono_r; lia.
  - intros normal. replace d with 24 in low by lia. exact low.
Qed.

Lemma scaled_lt m1 e1 m2 e2 :
  bounded 24 128 m1 e1 = true → bounded 24 128 m2 e2 = true → e1 < e2 →
  Z.pos m1 * 2 ^ (e1 + 149) < Z.pos m2 * 2 ^ (e2 + 149).
Proof.
  intros (low1 & top1 & _)%bounded_mantissa
         (low2 & _ & normal2)%bounded_mantissa further.
  assert (2 ^ 23 ≤ Z.pos m2)%Z as normal by (apply normal2; lia).
  replace (e2 + 149) with (Z.succ (e2 - e1 - 1) + (e1 + 149)) by lia.
  rewrite (Z.pow_add_r 2 (Z.succ (e2 - e1 - 1)) (e1 + 149)) by lia.
  rewrite Z.pow_succ_r by lia.
  assert (0 < 2 ^ (e1 + 149)) by (apply Z.pow_pos_nonneg; lia).
  assert (0 < 2 ^ (e2 - e1 - 1)) by (apply Z.pow_pos_nonneg; lia).
  change (2 ^ 24) with 16777216 in *. change (2 ^ 23) with 8388608 in *.
  set (P := 2 ^ (e1 + 149)) in *. set (K := 2 ^ (e2 - e1 - 1)) in *.
  apply Z.lt_le_trans with (16777216 * P); [nia|].
  replace (Z.pos m2 * (2 * K * P)) with (Z.pos m2 * 2 * K * P) by lia.
  apply Z.mul_le_mono_nonneg_r; [lia|].
  apply Z.le_trans with (Z.pos m2 * 2 * 1); [lia|].
  apply Z.mul_le_mono_nonneg_l; lia.
Qed.

Lemma fraction_lt n1 e1 n2 e2 :
  (-149 ≤ e1)%Z → (-149 ≤ e2)%Z →
  (inject_Z n1 * 2 ^ e1 < inject_Z n2 * 2 ^ e2)%Q ↔
  n1 * 2 ^ (e1 + 149) < n2 * 2 ^ (e2 + 149).
Proof.
  intros low1 low2.
  assert (∀ n e, (-149 ≤ e)%Z →
            (inject_Z n * 2 ^ e == inject_Z (n * 2 ^ (e + 149)) * 2 ^ (-149))%Q)
    as scale.
  { intros n e low. rewrite inject_Z_mult, Zpower_Qpower by lia.
    rewrite <- Qmult_assoc, <- Qpower_plus by done.
    by replace (e + 149 + -149) with e by lia. }
  rewrite (scale n1 e1 low1), (scale n2 e2 low2).
  rewrite Qmult_lt_r by done.
  unfold Qlt. cbn. lia.
Qed.

Lemma fraction_sign n e :
  ((0 < inject_Z n * 2 ^ e)%Q ↔ 0 < n) ∧ ((inject_Z n * 2 ^ e < 0)%Q ↔ n < 0).
Proof.
  pose proof (Qpower_0_lt 2 e ltac:(done)) as positive.
  split.
  - rewrite <- (Qmult_0_l (2 ^ e)), Qmult_lt_r by done.
    unfold Qlt. cbn. lia.
  - rewrite <- (Qmult_0_l (2 ^ e)), Qmult_lt_r by done.
    unfold Qlt. cbn. lia.
Qed.

Lemma compare_mantissas ma mb (P : Z) :
  0 < P →
  match Pos.compare_cont Eq ma mb with Lt => true | _ => false end = true ↔
  Z.pos ma * P < Z.pos mb * P.
Proof.
  intros positive. change (Pos.compare_cont Eq ma mb) with (ma ?= mb)%positive.
  rewrite <- Z.mul_lt_mono_pos_r by done.
  destruct (Pos.compare_spec ma mb); split; (done || lia).
Qed.

Lemma fp_lt_value a b :
  binary32 a → binary32 b →
  fp_lt a b = true ↔ value_lt (value_of a) (value_of b).
Proof.
  unfold binary32, fp_lt, SFltb, SFcompare.
  destruct a as [sa|sa| |sa ma ea], b as [sb|sb| |sb mb eb];
    cbn [valid_binary value_of]; intros valid_a valid_b;
    try (destruct sa); try (destruct sb); cbn [value_lt].
  all: try (split; [discriminate|intros absurd; contradiction]).
  all: try (split; [intros _; exact I|reflexivity]).
  all: try (split; [discriminate|intros absurd; by apply Qlt_irrefl in absurd]).
  all: try (match goal with
            | |- _ ↔ (0 < inject_Z ?n * 2 ^ ?e)%Q =>
                rewrite (proj1 (fraction_sign n e))
            | |- _ ↔ (inject_Z ?n * 2 ^ ?e < 0)%Q =>
                rewrite (proj2 (fraction_sign n e))
            end; split; (done || lia)).
  all: pose proof (bounded_mantissa _ _ valid_a) as (low_a & _);
       pose proof (bounded_mantissa _ _ valid_b) as (low_b & _);
       rewrite fraction_lt by done;
       assert (0 < 2 ^ (ea + 149)) as positive_a
         by (apply Z.pow_pos_nonneg; lia);
       assert (0 < 2 ^ (eb + 149)) as positive_b
         by (apply Z.pow_pos_nonneg; lia).
  - rewrite <- !Pos2Z.opp_pos, !Z.mul_opp_l, <- Z.opp_lt_mono.
    destruct (Z.compare_spec ea eb) as [<-|lower|higher].
    + rewrite <- (compare_mantissas mb ma (2 ^ (ea + 149))) by done.
      change (Pos.compare_cont Eq mb ma) with (mb ?= ma)%positive.
      change (Pos.compare_cont Eq ma mb) with (ma ?= mb)%positive.
      rewrite (Pos.compare_antisym ma mb).
      by destruct (ma ?= mb)%positive.
    + pose proof (scaled_lt _ _ _ _ valid_a valid_b lower).
      split; [discriminate|lia].
    + pose proof (scaled_lt _ _ _ _ valid_b valid_a higher).
      split; [intros _; lia|reflexivity].
  - rewrite <- Pos2Z.opp_pos, Z.mul_opp_l. split; [intros _; nia|reflexivity].
  - rewrite <- Pos2Z.opp_pos, Z.mul_opp_l. split; [discriminate|nia].
  - destruct (Z.compare_spec ea eb) as [<-|lower|higher].
    + by apply compare_mantissas.
    + pose proof (scaled_lt _ _ _ _ valid_a valid_b lower).
      split; [intros _; lia|reflexivity].
    + pose proof (scaled_lt _ _ _ _ valid_b valid_a higher).
      split; [discriminate|lia].
Qed.

Lemma value_lt_Finite_l q q' v :
  (q == q')%Q → value_lt (Finite q) v ↔ value_lt (Finite q') v.
Proof. intros same. destruct v; cbn; [done|done| |done]. by rewrite same. Qed.

Lemma value_lt_Finite_r q q' v :
  (q == q')%Q → value_lt v (Finite q) ↔ value_lt v (Finite q').
Proof. intros same. destruct v; cbn; [done|done| |done]. by rewrite same. Qed.

Lemma value_lt_larger v a b :
  value_lt v a ∨ value_lt v b ↔ value_lt v (larger a b).
Proof.
  destruct v, a, b; cbn; try tauto.
  symmetry. apply Q.max_lt_iff.
Qed.

(** C2.  For a tempo and a configured maximum that are binary32 data,
    [IsTempoAllowed(t)] is true exactly when [t] is strictly greater than
    3/4 and strictly less than 6501171/4194304, the value of [1.55f], or
    than the configured maximum; that is, when [t] lies strictly between
    3/4 and the larger of 6501171/4194304 and the configured maximum.  A
    tempo that is not a number or is infinite is never allowed. *)
Theorem IsTempoAllowed_bounds (advancedSettings : CAdvancedSettings)
    (tempo : float) :
  binary32 tempo → binary32 (m_maxTempo advancedSettings) →
  (IsTempoAllowed advancedSettings tempo = true ↔
     value_lt (Finite (3 # 4)) (value_of tempo)
     ∧ (value_lt (value_of tempo) (Finite (6501171 # 4194304))
        ∨ value_lt (value_of tempo)
            (value_of (m_maxTempo advancedSettings))))
  ∧ (IsTempoAllowed advancedSettings tempo = true ↔
       value_lt (Finite (3 # 4)) (value_of tempo)
       ∧ value_lt (value_of tempo)
           (larger (Finite (6501171 # 4194304))
              (value_of (m_maxTempo advancedSettings))))
  ∧ (IsTempoAllowed advancedSettings tempo = true →
       ∃ q, value_of tempo = Finite q).
Proof.
  intros valid_tempo valid_max.
  assert (fp_gt tempo MinTempoPlatform = true ↔
            value_lt (Finite (3 # 4)) (value_of tempo)) as above.
  { unfold fp_gt. fold (fp_lt MinTempoPlatform tempo).
    rewrite (fp_lt_value MinTempoPlatform tempo
               (proj1 platform_tempos_are_binary32) valid_tempo).
    apply value_lt_Finite_l. vm_compute. reflexivity. }
  assert (fp_lt tempo MaxTempoPlatform = true ↔
            value_lt (value_of tempo) (Finite (6501171 # 4194304))) as below.
  { rewrite (fp_lt_value tempo MaxTempoPlatform valid_tempo
               (proj2 platform_tempos_are_binary32)).
    apply value_lt_Finite_r. vm_compute. reflexivity. }
  pose proof (fp_lt_value tempo _ valid_tempo valid_max) as configured.
  assert (IsTempoAllowed advancedSettings tempo = true ↔
            value_lt (Finite (3 # 4)) (value_of tempo)
            ∧ (value_lt (value_of tempo) (Finite (6501171 # 4194304))
               ∨ value_lt (value_of tempo)
                   (value_of (m_maxTempo advancedSettings)))) as limits.
  { rewrite <- above, <- below, <- configured. unfold IsTempoAllowed.
    destruct (fp_gt tempo MinTempoPlatform),
             (fp_lt tempo MaxTempoPlatform),
             (fp_lt tempo (m_maxTempo advancedSettings));
      cbn; intuition congruence. }
  split; [exact limits|]. split.
  - by rewrite limits, value_lt_larger.
  - rewrite limits. intros [low high].
    destruct (value_of tempo) as [| |q|]; cbn in low; try contradiction.
    + by exists q.
    + destruct high as [high|high]; [contradiction|].
      by destruct (value_of (m_maxTempo advancedSettings)).
Qed.

(** ** Reset and rebinding *)

Lemma ResetVideoCodecInfo_effect σ :
  ∃ σ', ResetVideoCodecInfo σ = Returned () σ'
    ∧ reset_video_members (this σ')
    ∧ m_dataCache (this σ') = m_dataCache (this σ)
    ∧ m_videoDoViStreamMetadata (this σ') = m_videoDoViStreamMetadata (this σ)
    ∧ m_pixFormats (this σ') = m_pixFormats (this σ)
    ∧ trace σ' =
        (trace σ ++
         Acquire m_videoCodecSection
           :: match m_dataCache (this σ) with
              | Some cache => map (DataCache cache) reset_video_calls
              | None => []
              end
           ++ [Release m_videoCodecSection])%list.
Proof.
  run_method; eexists; (split; [reflexivity|]); cbn;
    (split; [by repeat split|]); do 3 (split; [done|]);
    rewrite <- ?app_assoc; reflexivity.
Qed.

(** C4.  From every state, [SetDataCache(cache)] with a cache leaves
    [m_dataCache] pointing at it and both render-layer flags false, and
    the last two events are the calls [SetGuiRender(false)] and
    [SetVideoRender(false)] on that cache, whatever the flags were. *)
Theorem SetDataCache_rebinds_and_broadcasts (cache : address) σ :
  ∃ σ', SetDataCache (Some cache) σ = Returned () σ'
    ∧ m_dataCache (this σ') = Some cache
    ∧ m_renderGuiLayer (this σ') = false
    ∧ m_renderVideoLayer (this σ') = false
    ∧ trace σ' =
        ((trace σ ++
          Acquire m_videoCodecSection
            :: map (DataCache cache) reset_video_calls
            ++ [Release m_videoCodecSection])
         ++ [DataCache cache (CDataCacheCore.SetGuiRender false)]
         ++ [DataCache cache (CDataCacheCore.SetVideoRender false)])%list
    ∧ cache_holds cache (CDataCacheCore.SetGuiRender false) (trace σ')
    ∧ cache_holds cache (CDataCacheCore.SetVideoRender false) (trace σ').
Proof.
  assert (∃ σ', SetDataCache (Some cache) σ = Returned () σ'
    ∧ m_dataCache (this σ') = Some cache
    ∧ m_renderGuiLayer (this σ') = false
    ∧ m_renderVideoLayer (this σ') = false
    ∧ trace σ' =
        ((trace σ ++
          Acquire m_videoCodecSection
            :: map (DataCache cache) reset_video_calls
            ++ [Release m_videoCodecSection])
         ++ [DataCache cache (CDataCacheCore.SetGuiRender false)]
         ++ [DataCache cache (CDataCacheCore.SetVideoRender false)])%list)
    as (σ' & run & bound & gui & video & events).
  { run_method; eexists; (split; [reflexivity|]); cbn;
      do 3 (split; [done|]); rewrite <- ?app_assoc; reflexivity. }
  exists σ'. do 5 (split; [assumption|]). rewrite events, app_assoc. split.
  - apply cache_holds_before; [|apply cache_holds_last].
    by intros c' [= <-].
  - apply cache_holds_last.
Qed.

(** ** Deinterlacing methods *)

Lemma Supports_effect method σ :
  Supports method σ =
    Returned (bool_decide (method ∈ m_deintMethods (this σ)))
      {| this := this σ;
         trace := trace σ ++ [Acquire m_videoCodecSection;
                              Release m_videoCodecSection] |}.
Proof.
  destruct σ as [p t]. unfold Supports, unique_lock, mbind, Method_bind; cbn.
  destruct (bool_decide (method ∈ m_deintMethods p)); cbn;
    by rewrite <- app_assoc.
Qed.

Lemma append_unsupported_effect deint σ :
  append_unsupported deint σ =
    Returned ()
      {| this := (this σ)<|m_deintMethods :=
                   merge_render_methods (m_deintMethods (this σ)) [deint]|>;
         trace := trace σ ++ [Acquire m_videoCodecSection;
                              Release m_videoCodecSection] |}.
Proof.
  unfold append_unsupported.
  rewrite (bind_Returned _ _ _ _ _ (Supports_effect _ _)).
  destruct σ as [p t], p. cbn -[bool_decide].
  by destruct (bool_decide _).
Qed.

Lemma append_unsupported_loop render : ∀ σ,
  for_each render append_unsupported σ =
    Returned ()
      {| this := (this σ)<|m_deintMethods :=
                   merge_render_methods (m_deintMethods (this σ)) render|>;
         trace := trace σ ++ Supports_locks render |}.
Proof.
  unfold Supports_locks.
  induction render as [|deint rest IH]; intros σ.
  - destruct σ as [p t], p. cbn. by rewrite app_nil_r.
  - cbn [for_each].
    rewrite (bind_Returned _ _ _ _ _ (append_unsupported_effect _ _)), IH.
    destruct σ as [p t], p. cbn -[bool_decide]. by rewrite <- app_assoc.
Qed.

Lemma UpdateDeinterlacingMethods_effect methods σ :
  UpdateDeinterlacingMethods methods σ =
    Returned ()
      {| this := (this σ)<|m_deintMethods :=
           with_NONE (merge_render_methods methods
              (CRenderInfo_m_deintMethods (m_renderInfo (this σ))))|>;
         trace := trace σ ++
           [Acquire m_videoCodecSection] ++
           Supports_locks (CRenderInfo_m_deintMethods (m_renderInfo (this σ)))
           ++ [Acquire m_videoCodecSection; Release m_videoCodecSection;
               Release m_videoCodecSection] |}.
Proof.
  unfold UpdateDeinterlacingMethods, unique_lock.
  change (λ deint : EINTERLACEMETHOD, Supports deint ≫= _)
    with append_unsupported.
  destruct σ as [p t], p.
  unfold mbind at 1, Method_bind at 1. cbn [emit this trace].
  unfold mbind at 1, Method_bind at 1.
  unfold mbind at 1, Method_bind at 1.
  cbn [store this trace apply_update constant].
  unfold mbind at 1, Method_bind at 1. cbn [load this trace].
  unfold mbind at 1, Method_bind at 1.
  rewrite append_unsupported_loop. cbn [this trace].
  unfold mbind at 1, Method_bind at 1.
  rewrite Supports_effect. unfold with_NONE, push_front.
  destruct (bool_decide _);
    unfold when, mbind, Method_bind, mret, Method_ret, emit, store;
    cbn -[merge_render_methods Supports_locks];
    rewrite <- ?app_assoc; reflexivity.
Qed.

(** C5.  For every list of methods and every state, [Supports(NONE)]
    returns true right after [UpdateDeinterlacingMethods]. *)
Theorem Supports_NONE_after_UpdateDeinterlacingMethods methods σ :
  ∃ σ1 σ2,
    UpdateDeinterlacingMethods methods σ = Returned () σ1
    ∧ Supports VS_INTERLACEMETHOD_NONE σ1 = Returned true σ2.
Proof.
  eexists _, _. split; [apply UpdateDeinterlacingMethods_effect|].
  rewrite Supports_effect, bool_decide_eq_true_2; [reflexivity|].
  destruct σ as [p t], p. cbn -[merge_render_methods]. unfold with_NONE.
  case_bool_decide as present; [exact present|by left].
Qed.

(** C6.  If NONE is not in the merge of the caller's list with the
    renderer's methods, then after [UpdateDeinterlacingMethods] NONE is the
    first element of [m_deintMethods]; the elements after it are that
    merge, in the order the caller and the renderer gave them. *)
Theorem NONE_first_when_absent_from_merge methods σ :
  VS_INTERLACEMETHOD_NONE ∉
    merge_render_methods methods
      (CRenderInfo_m_deintMethods (m_renderInfo (this σ))) →
  ∃ σ', UpdateDeinterlacingMethods methods σ = Returned () σ'
    ∧ head (m_deintMethods (this σ')) = Some VS_INTERLACEMETHOD_NONE
    ∧ tail (m_deintMethods (this σ')) =
        merge_render_methods methods
          (CRenderInfo_m_deintMethods (m_renderInfo (this σ))).
Proof.
  intros absent.
  eexists. split; [apply UpdateDeinterlacingMethods_effect|].
  destruct σ as [p t], p. cbn -[merge_render_methods] in *. unfold with_NONE.
  by rewrite bool_decide_eq_false_2.
Qed.

(** ** Getters after setters *)

Lemma accessor_pairs_read_back : Forall reads_back accessor_pairs.
Proof.
  unfold accessor_pairs. each_entry.
  all: run_method; eexists; reflexivity.
Qed.

Lemma GetPixFormats_after_SetPixFormats formats σ :
  ∃ σ', (SetPixFormats formats;; GetPixFormats) σ =
          Returned (if empty formats then [AV_PIX_FMT_YUV420P] else formats) σ'.
Proof. destruct formats; run_method; eexists; reflexivity. Qed.

(** C7, as amended.  For every setter/getter pair in [accessor_pairs], the
    getter called right after the setter returns what was set, also for
    [SetStateSeeking]/[IsSeeking] and [SetStateRealtime]/[IsRealtimeStream],
    whose setter holds [m_renderSection] and whose getter holds
    [m_stateSection].  [GetPixFormats] after [SetPixFormats(v)] returns [v]
    when [v] is not empty and the one-element list of YUV420P when it is. *)
Theorem get_after_set :
  Forall reads_back accessor_pairs
  ∧ (∀ formats σ, ∃ σ',
       (SetPixFormats formats;; GetPixFormats) σ =
         Returned (if empty formats then [AV_PIX_FMT_YUV420P] else formats) σ')
  ∧ (∀ active σ, ∃ σ',
       (SetStateSeeking active;; IsSeeking) σ = Returned active σ'
       ∧ trace σ' =
           (trace σ ++
            Acquire m_renderSection
              :: forwarded (m_dataCache (this σ))
                   (CDataCacheCore.SetStateSeeking active)
              ++ [Release m_renderSection;
                  Acquire m_stateSection; Release m_stateSection])%list)
  ∧ (∀ state σ, ∃ σ',
       (SetStateRealtime state;; IsRealtimeStream) σ = Returned state σ'
       ∧ trace σ' =
           (trace σ ++
            [Acquire m_renderSection; Release m_renderSection;
             Acquire m_stateSection; Release m_stateSection])%list).
Proof.
  split; [apply accessor_pairs_read_back|].
  split; [apply GetPixFormats_after_SetPixFormats|].
  split; intros v σ.
  - run_method; eexists; (split; [reflexivity|]); cbn;
      rewrite <- ?app_assoc; reflexivity.
  - run_method; eexists; (split; [reflexivity|]); cbn;
      rewrite <- ?app_assoc; reflexivity.
Qed.

(** C10.  [GetPixFormats] never returns an empty list: it returns
    [m_pixFormats] when that is not empty and the render formats, the
    one-element list of YUV420P, when it is, which is the case when nothing
    or an empty list has been set. *)
Theorem GetPixFormats_never_empty :
  (∀ σ, ∃ formats σ',
     GetPixFormats σ = Returned formats σ'
     ∧ formats ≠ []
     ∧ formats = if empty (m_pixFormats (this σ))
                 then [AV_PIX_FMT_YUV420P] else m_pixFormats (this σ))
  ∧ (∀ formats σ, ∃ σ',
       (SetPixFormats formats;; GetPixFormats) σ =
         Returned (if empty formats then [AV_PIX_FMT_YUV420P] else formats) σ')
  ∧ GetRenderFormats = [AV_PIX_FMT_YUV420P].
Proof.
  split; [|split; [apply GetPixFormats_after_SetPixFormats|reflexivity]].
  intros [p t]. destruct p as [dataCache]. cbn.
  match goal with |- context [empty ?formats] => destruct formats end;
    eexists _, _; (split; [reflexivity|]); done.
Qed.

(** ** Null cache pointers *)

Lemma mirroring_operations_guard :
  Forall guards_dataCache mirroring_operations.
Proof.
  unfold mirroring_operations, mirroring_setters. cbn [map app].
  each_entry.
  all: run_method; eexists; (split; [reflexivity|]); cbn;
    intros unbound; try discriminate unbound;
    unfold cache_calls; rewrite ?omap_app; cbn; rewrite ?app_nil_r;
    reflexivity.
Qed.

(** C9.  [SetDataCache] dereferences its argument without a check: with
    a null pointer it runs into a null dereference from every state, and
    it returns exactly when the pointer is not null.  Every other member
    function that calls the cache returns for either value of
    [m_dataCache] and calls nothing when it is null. *)
Theorem SetDataCache_needs_a_cache :
  (∀ σ, SetDataCache nullptr σ = NullDereference)
  ∧ (∀ cache σ,
       (∃ σ', SetDataCache cache σ = Returned () σ') ↔ cache ≠ nullptr)
  ∧ Forall guards_dataCache mirroring_operations.
Proof.
  split; [|split; [|apply mirroring_operations_guard]].
  - intros [p t]. destruct p. cbv. reflexivity.
  - intros cache [p t]. destruct p as [dataCache]. split.
    + intros [σ' run] ->. cbv in run. discriminate run.
    + destruct cache as [a|]; [intros _|intros bound; by destruct bound].
      eexists. cbv. reflexivity.
Qed.

End Properties.

(** ** The registry *)

Lemma RegisterProcessControl_singleton id createFunc m :
  RegisterProcessControl id createFunc m = {[ id := createFunc ]}.
Proof. unfold RegisterProcessControl, clear. apply insert_empty. Qed.

Lemma in_key_order_singleton id createFunc :
  in_key_order {[ id := createFunc ]} = [(id, createFunc)].
Proof. unfold in_key_order. by rewrite map_to_list_singleton. Qed.

Lemma in_key_order_empty : in_key_order ∅ = [].
Proof. unfold in_key_order. by rewrite map_to_list_empty. Qed.

(** C8.  [RegisterProcessControl(id, f)] leaves the registry with exactly
    one entry, [id] mapped to [f], whatever it held before, and
    [CreateInstance] then calls that one callback; after any sequence of
    registrations, also the empty one, [CreateInstance] calls at most one
    callback. *)
Theorem RegisterProcessControl_keeps_one_entry :
  (∀ id createFunc m,
     let registry := RegisterProcessControl id createFunc m in
     registry = {[ id := createFunc ]}
     ∧ map_to_list registry = [(id, createFunc)]
     ∧ size registry = 1%nat
     ∧ (CreateInstance registry).1 = [id])
  ∧ (∀ earlier,
       (length (CreateInstance (registrations earlier)).1 ≤ 1)%nat).
Proof.
  split.
  - intros id createFunc m registry. subst registry.
    rewrite RegisterProcessControl_singleton.
    split; [done|]. split; [apply map_to_list_singleton|].
    split; [apply map_size_singleton|].
    unfold CreateInstance. rewrite in_key_order_singleton. cbn.
    by destruct (createFunc ()).
  - intros earlier. unfold registrations.
    induction earlier as [|r earlier IH] using rev_ind.
    + unfold CreateInstance. cbn. rewrite in_key_order_empty. cbn. lia.
    + rewrite foldl_app. cbn. rewrite RegisterProcessControl_singleton.
      unfold CreateInstance. rewrite in_key_order_singleton. cbn.
      destruct (r.2 ()); cbn; lia.
Qed.

(** ** Closed runs *)


(** C2 at a concrete input: the tempo [1.75f] under a configured maximum
    of [2.0f] is allowed, above 3/4 and below the larger limit. *)
Lemma IsTempoAllowed_bounds_witness :
  binary32 demo_tempo
  ∧ binary32 (m_maxTempo demo_settings_2)
  ∧ IsTempoAllowed demo_settings_2 demo_tempo = true
  ∧ value_lt (Finite (3 # 4)) (value_of demo_tempo)
  ∧ value_lt (value_of demo_tempo)
      (larger (Finite (6501171 # 4194304))
         (value_of (m_maxTempo demo_settings_2))).
Proof.
  assert (binary32 demo_tempo) as valid_tempo by reflexivity.
  assert (binary32 (m_maxTempo demo_settings_2)) as valid_max by reflexivity.
  split; [exact valid_tempo|]. split; [exact valid_max|].
  split; [reflexivity|].
  apply (IsTempoAllowed_bounds demo_settings_2 demo_tempo valid_tempo
           valid_max).
  reflexivity.
Defined.

(** C2 as first stated, with the decimal limits, fails at the tempo
    [1.55f] under a configured maximum of [1.55f]: its value
    6501171/4194304 is above 0.75 and below 1.55, yet
    [IsTempoAllowed] returns false, since the tempo is not below the
    [float] that [MaxTempoPlatform] returns. *)
Lemma IsTempoAllowed_refuses_float_1_55 :
  binary32 demo_tempo_1_55
  ∧ binary32 (m_maxTempo demo_settings_1_55)
  ∧ allowed_by_decimal_limits (m_maxTempo demo_settings_1_55) demo_tempo_1_55
  ∧ IsTempoAllowed demo_settings_1_55 demo_tempo_1_55 = false.
Proof.
  split; [reflexivity|]. split; [reflexivity|]. split; [|reflexivity].
  split; [|left]; vm_compute; reflexivity.
Qed.

(** C3.  The session [demo_session] binds a cache, sets the Dolby Vision
    stream metadata to 7 and the interlaced flag to true, and resets.
    After the reset the stream metadata is still 7, not its initial value,
    and the cache still holds what the two setters sent: interlaced true,
    although [m_videoIsInterlaced] is false again, and metadata 7. *)
Theorem ResetVideoCodecInfo_misses_members :
  ∃ σ', demo_session (demo_machine []) = Returned () σ'
    ∧ m_videoDoViStreamMetadata (this σ') = 7
    ∧ m_videoDoViStreamMetadata (this σ') ≠ @DOVIStreamMetadata_init demo
    ∧ m_videoIsInterlaced (this σ') = false
    ∧ cache_holds 1%N (CDataCacheCore.SetVideoInterlaced true) (trace σ')
    ∧ cache_holds 1%N
        (@CDataCacheCore.SetVideoDoViStreamMetadata demo 7) (trace σ').
Proof.
  eexists. split; [vm_compute; reflexivity|].
  vm_compute. do 4 (split; [first [reflexivity|discriminate]|]). reflexivity.
Qed.

(** C6 at a concrete input: the caller passes [16; 17], the renderer
    reports [2; 16]; the list becomes [0; 16; 17; 2]. *)
Lemma NONE_first_when_absent_from_merge_witness :
  ∃ σ', UpdateDeinterlacingMethods (H := demo) [16; 17] (demo_machine [2; 16])
        = Returned () σ'
    ∧ head (m_deintMethods (this σ')) = Some 0
    ∧ tail (m_deintMethods (this σ')) = [16; 17; 2].
Proof.
  apply (NONE_first_when_absent_from_merge (H := demo) [16; 17]
           (demo_machine [2; 16])).
  apply (bool_decide_unpack _). vm_compute. exact I.
Defined.

(** C7, as stated, fails for the pixel formats: after [SetPixFormats] with
    the empty list, [GetPixFormats] returns the render formats. *)
Lemma GetPixFormats_after_empty_SetPixFormats :
  ¬ set_then_get (H := demo) SetPixFormats GetPixFormats.
Proof.
  intros claim. destruct (claim [] (demo_machine [])) as [σ' run].
  vm_compute in run. discriminate run.
Qed.

(** * Further properties of the code *)

Section MoreProperties.
Context `{Externals}.

(** ** Traces without cache calls *)

Lemma cache_calls_Acquire section t :
  cache_calls (Acquire section :: t) = cache_calls t.
Proof. reflexivity. Qed.

Lemma cache_calls_Release section t :
  cache_calls (Release section :: t) = cache_calls t.
Proof. reflexivity. Qed.

Lemma cache_calls_nil : cache_calls [] = [].
Proof. reflexivity. Qed.

Ltac only_locks :=
  cbn [trace app];
  repeat first
    [ rewrite cache_calls_app
    | rewrite cache_calls_Supports_locks
    | rewrite cache_calls_Acquire
    | rewrite cache_calls_Release
    | rewrite cache_calls_nil
    | rewrite app_nil_r ];
  reflexivity.

(** ** The list of deinterlacing methods *)

Lemma elem_of_merge_render_methods x render : ∀ methods,
  x ∈ merge_render_methods methods render ↔ x ∈ methods ∨ x ∈ render.
Proof.
  unfold merge_render_methods, push_back.
  induction render as [|deint rest IH]; intros methods; cbn.
  - rewrite elem_of_nil. tauto.
  - rewrite IH, elem_of_cons. case_bool_decide as known.
    + split; [tauto|]. intros [?|[->|?]]; tauto.
    + rewrite elem_of_app, list_elem_of_singleton. tauto.
Qed.

Lemma NoDup_merge_render_methods render : ∀ methods,
  NoDup methods → NoDup (merge_render_methods methods render).
Proof.
  unfold merge_render_methods, push_back.
  induction render as [|deint rest IH]; intros methods distinct; cbn.
  - done.
  - apply IH. case_bool_decide as known; [done|].
    apply NoDup_app. split; [done|]. split.
    + intros x inside ->%list_elem_of_singleton. done.
    + apply NoDup_singleton.
Qed.

Lemma merge_render_methods_prefix render : ∀ methods,
  methods `prefix_of` merge_render_methods methods render.
Proof.
  unfold merge_render_methods, push_back.
  induction render as [|deint rest IH]; intros methods; cbn.
  - done.
  - case_bool_decide; [apply IH|].
    etrans; [|apply IH]. by apply prefix_app_r.
Qed.

(** X1.  After [UpdateDeinterlacingMethods(methods)], [Supports(m)] is
    true exactly for NONE, for the methods the caller passed and for the
    methods the renderer reports: nothing that was passed or reported is
    lost, and what was supported before and is in neither list is no longer
    supported.  No cache is called. *)
Theorem UpdateDeinterlacingMethods_supports_exactly methods method σ :
  ∃ σ1 σ2,
    UpdateDeinterlacingMethods methods σ = Returned () σ1
    ∧ Supports method σ1 =
        Returned
          (bool_decide
             (method = VS_INTERLACEMETHOD_NONE
              ∨ method ∈ methods
              ∨ method ∈ CRenderInfo_m_deintMethods (m_renderInfo (this σ))))
          σ2
    ∧ cache_calls (trace σ2) = cache_calls (trace σ).
Proof.
  eexists _, _. split; [apply UpdateDeinterlacingMethods_effect|].
  rewrite Supports_effect. split.
  - f_equal. apply bool_decide_ext.
    destruct σ as [p t], p. cbn -[merge_render_methods]. unfold with_NONE.
    case_bool_decide as present; unfold push_front, constant;
      rewrite ?elem_of_cons, elem_of_merge_render_methods.
    + split; [tauto|]. intros [->|?]; [|done].
      by apply elem_of_merge_render_methods.
    + tauto.
  - only_locks.
Qed.

(** X2.  If the caller's list has no duplicates,
    [UpdateDeinterlacingMethods] leaves [m_deintMethods] without
    duplicates, however often the renderer reports a method. *)
Theorem UpdateDeinterlacingMethods_keeps_distinct methods σ :
  NoDup methods →
  ∃ σ', UpdateDeinterlacingMethods methods σ = Returned () σ'
    ∧ NoDup (m_deintMethods (this σ')).
Proof.
  intros distinct.
  eexists. split; [apply UpdateDeinterlacingMethods_effect|].
  pose proof (NoDup_merge_render_methods
                (CRenderInfo_m_deintMethods (m_renderInfo (this σ)))
                methods distinct) as merged.
  destruct σ as [p t], p. cbn -[merge_render_methods] in *.
  unfold with_NONE, constant, push_front.
  case_bool_decide as present; [exact merged|]. by apply NoDup_cons.
Qed.

Lemma UpdateRenderInfo_effect info σ :
  UpdateRenderInfo info σ =
    Returned ()
      {| this := (this σ)<|m_renderInfo := info|>
                   <|m_deintMethods :=
                       merge_render_methods (m_deintMethods (this σ))
                         (CRenderInfo_m_deintMethods info)|>;
         trace := trace σ ++
           [Acquire m_renderSection] ++
           Supports_locks (CRenderInfo_m_deintMethods info)
           ++ [Release m_renderSection] |}.
Proof.
  unfold UpdateRenderInfo, unique_lock.
  change (λ deint : EINTERLACEMETHOD, Supports deint ≫= _)
    with append_unsupported.
  destruct σ as [p t], p.
  unfold mbind at 1, Method_bind at 1. cbn [emit this trace].
  unfold mbind at 1, Method_bind at 1.
  unfold mbind at 1, Method_bind at 1.
  cbn [store this trace apply_update constant].
  unfold mbind at 1, Method_bind at 1. cbn [load this trace].
  rewrite append_unsupported_loop.
  unfold mbind, Method_bind, mret, Method_ret, emit.
  cbn -[merge_render_methods Supports_locks].
  rewrite <- ?app_assoc; reflexivity.
Qed.

(** X3.  [UpdateRenderInfo(info)] stores [info] and only appends to
    [m_deintMethods]: the old list is a prefix of the new one, and
    afterwards [Supports(m)] is true exactly for what was supported before
    and for the methods of [info].  NONE is not added, and no cache is
    called. *)
Theorem UpdateRenderInfo_extends_supported info method σ :
  ∃ σ1 σ2,
    UpdateRenderInfo info σ = Returned () σ1
    ∧ m_renderInfo (this σ1) = info
    ∧ m_deintMethods (this σ) `prefix_of` m_deintMethods (this σ1)
    ∧ Supports method σ1 =
        Returned
          (bool_decide (method ∈ m_deintMethods (this σ)
                        ∨ method ∈ CRenderInfo_m_deintMethods info))
          σ2
    ∧ cache_calls (trace σ2) = cache_calls (trace σ).
Proof.
  eexists _, _. split; [apply UpdateRenderInfo_effect|].
  rewrite Supports_effect. split; [|split; [|split]].
  - destruct σ as [p t], p. reflexivity.
  - destruct σ as [p t], p. cbn -[merge_render_methods]. unfold constant.
    apply merge_render_methods_prefix.
  - f_equal. apply bool_decide_ext.
    destruct σ as [p t], p. cbn -[merge_render_methods]. unfold constant.
    apply elem_of_merge_render_methods.
  - only_locks.
Qed.

(** X4.  After [SetSwDeinterlacingMethods] the list is NONE, DEINTERLACE,
    DEINTERLACE_HALF followed by the renderer's methods that are not among
    them, NONE is first, and the default method is the fallback method
    DEINTERLACE.  No cache is called. *)
Theorem SetSwDeinterlacingMethods_result σ :
  ∃ σ',
    SetSwDeinterlacingMethods σ = Returned () σ'
    ∧ m_deintMethods (this σ') =
        merge_render_methods
          [VS_INTERLACEMETHOD_NONE; VS_INTERLACEMETHOD_DEINTERLACE;
           VS_INTERLACEMETHOD_DEINTERLACE_HALF]
          (CRenderInfo_m_deintMethods (m_renderInfo (this σ)))
    ∧ head (m_deintMethods (this σ')) = Some VS_INTERLACEMETHOD_NONE
    ∧ m_deintMethodDefault (this σ') = GetFallbackDeintMethod
    ∧ cache_calls (trace σ') = cache_calls (trace σ).
Proof.
  unfold SetSwDeinterlacingMethods, push_back. cbn [app].
  rewrite (bind_Returned _ _ _ _ _ (UpdateDeinterlacingMethods_effect _ _)).
  assert (VS_INTERLACEMETHOD_NONE ∈
            merge_render_methods
              [VS_INTERLACEMETHOD_NONE; VS_INTERLACEMETHOD_DEINTERLACE;
               VS_INTERLACEMETHOD_DEINTERLACE_HALF]
              (CRenderInfo_m_deintMethods (m_renderInfo (this σ))))
    as present.
  { apply elem_of_merge_render_methods. left. by left. }
  pose proof (merge_render_methods_prefix
                (CRenderInfo_m_deintMethods (m_renderInfo (this σ)))
                [VS_INTERLACEMETHOD_NONE; VS_INTERLACEMETHOD_DEINTERLACE;
                 VS_INTERLACEMETHOD_DEINTERLACE_HALF]) as [rest shape].
  destruct σ as [p t], p.
  unfold SetDeinterlacingMethodDefault, unique_lock, mbind, Method_bind,
    mret, Method_ret, emit, store.
  cbn -[merge_render_methods Supports_locks cache_calls] in *.
  unfold with_NONE. rewrite bool_decide_eq_true_2 by exact present.
  eexists. split; [reflexivity|]. cbn -[merge_render_methods Supports_locks cache_calls].
  unfold constant.
  split; [done|]. split; [by rewrite shape|]. split; [done|].
  only_locks.
Qed.

(** ** Resets *)

Lemma last_call_absent cache member calls :
  member ∉ map CDataCacheCore.member calls →
  last_call cache member (map (DataCache cache) calls) = None.
Proof.
  induction calls as [|c calls IH]; [done|].
  cbn. intros absent. apply not_elem_of_cons in absent as [differs absent].
  rewrite (IH absent). case_bool_decide as same; [|done].
  by destruct same as [_ <-].
Qed.

Lemma last_call_among cache c calls :
  NoDup (map CDataCacheCore.member calls) → c ∈ calls →
  last_call cache (CDataCacheCore.member c) (map (DataCache cache) calls)
  = Some c.
Proof.
  induction calls as [|x calls IH]; intros distinct inside.
  - by apply elem_of_nil in inside.
  - cbn in distinct. apply NoDup_cons in distinct as [fresh distinct].
    apply elem_of_cons in inside as [->|inside]; cbn.
    + rewrite (last_call_absent _ _ _ fresh).
      by rewrite bool_decide_eq_true_2.
    + by rewrite (IH distinct inside).
Qed.

Lemma cache_holds_mirrored_inside section cache calls c t :
  NoDup (map CDataCacheCore.member calls) → c ∈ calls →
  cache_holds cache c (t ++ mirrored_inside section (Some cache) calls).
Proof.
  intros distinct inside. unfold cache_holds, mirrored_inside.
  rewrite last_call_app. cbn. rewrite last_call_app. cbn.
  by rewrite (last_call_among _ _ _ distinct inside).
Qed.

Lemma reset_video_calls_distinct :
  NoDup (map CDataCacheCore.member reset_video_calls).
Proof. cbn. apply (bool_decide_unpack _). by vm_compute. Qed.

Lemma reset_audio_calls_distinct :
  NoDup (map CDataCacheCore.member reset_audio_calls).
Proof. cbn. apply (bool_decide_unpack _). by vm_compute. Qed.

(** X5.  [ResetVideoCodecInfo] assigns the values of
    [reset_video_members], leaves [m_dataCache] as it was and, inside
    [m_videoCodecSection], makes the calls of [reset_video_calls] on the
    bound cache in that order, and none without a cache; the bound cache
    then holds each of these values. *)
Theorem ResetVideoCodecInfo_mirrors_defaults σ :
  ∃ σ', ResetVideoCodecInfo σ = Returned () σ'
    ∧ reset_video_members (this σ')
    ∧ m_dataCache (this σ') = m_dataCache (this σ)
    ∧ trace σ' =
        (trace σ ++
         mirrored_inside m_videoCodecSection (m_dataCache (this σ))
           reset_video_calls)%list
    ∧ Forall (bound_cache_holds σ') reset_video_calls.
Proof.
  destruct (ResetVideoCodecInfo_effect σ)
    as (σ' & run & members & bound & _ & _ & events).
  exists σ'. do 4 (split; [assumption|]).
  apply Forall_forall. intros c inside. unfold bound_cache_holds.
  rewrite bound, events. destruct (m_dataCache (this σ)) as [cache|]; [|done].
  by apply (cache_holds_mirrored_inside m_videoCodecSection);
    [apply reset_video_calls_distinct|].
Qed.

(** X6.  [ResetAudioCodecInfo] assigns the values of
    [reset_audio_members], leaves [m_dataCache] as it was and, inside
    [m_audioCodecSection], makes the calls of [reset_audio_calls] on the
    bound cache in that order, and none without a cache; the bound cache
    then holds each of these values, the queue data level included, for
    which the code passes [m_audioQueueLevel]. *)
Theorem ResetAudioCodecInfo_mirrors_defaults σ :
  ∃ σ', ResetAudioCodecInfo σ = Returned () σ'
    ∧ reset_audio_members (this σ')
    ∧ m_dataCache (this σ') = m_dataCache (this σ)
    ∧ trace σ' =
        (trace σ ++
         mirrored_inside m_audioCodecSection (m_dataCache (this σ))
           reset_audio_calls)%list
    ∧ Forall (bound_cache_holds σ') reset_audio_calls.
Proof.
  assert (∃ σ', ResetAudioCodecInfo σ = Returned () σ'
    ∧ reset_audio_members (this σ')
    ∧ m_dataCache (this σ') = m_dataCache (this σ)
    ∧ trace σ' =
        (trace σ ++
         mirrored_inside m_audioCodecSection (m_dataCache (this σ))
           reset_audio_calls)%list)
    as (σ' & run & members & bound & events).
  { run_method; eexists; (split; [reflexivity|]); cbn;
      (split; [by repeat split|]); (split; [done|]);
      rewrite <- ?app_assoc; reflexivity. }
  exists σ'. do 4 (split; [assumption|]).
  apply Forall_forall. intros c inside. unfold bound_cache_holds.
  rewrite bound, events. destruct (m_dataCache (this σ)) as [cache|]; [|done].
  by apply (cache_holds_mirrored_inside m_audioCodecSection);
    [apply reset_audio_calls_distinct|].
Qed.

(** X9.  Speed and tempo reach the cache through the one call
    [SetSpeed(tempo, speed)], and each setter fills in the other argument
    from a member.  After [SetNewTempo(t); SetNewSpeed(s)] the cache holds
    the tempo [m_tempo] that was current before, not the pending [t] that
    [GetNewTempo] returns; after [SetNewSpeed(s); SetNewTempo(t)] it holds
    the speed [m_speed] that was current before, not the pending [s].
    After [SetTempo(t)] and [SetSpeed(s)], in either order, it holds
    [(t, s)]. *)
Theorem speed_and_tempo_share_one_cache_call (tempo speed : float) σ :
  (∃ σ', (SetNewTempo tempo;; SetNewSpeed speed) σ = Returned () σ'
     ∧ m_newTempo (this σ') = tempo
     ∧ m_newSpeed (this σ') = speed
     ∧ bound_cache_holds σ'
         (CDataCacheCore.SetSpeed (m_tempo (this σ)) speed))
  ∧ (∃ σ', (SetNewSpeed speed;; SetNewTempo tempo) σ = Returned () σ'
     ∧ m_newTempo (this σ') = tempo
     ∧ m_newSpeed (this σ') = speed
     ∧ bound_cache_holds σ'
         (CDataCacheCore.SetSpeed tempo (m_speed (this σ))))
  ∧ (∃ σ', (SetTempo tempo;; SetSpeed speed) σ = Returned () σ'
     ∧ bound_cache_holds σ' (CDataCacheCore.SetSpeed tempo speed))
  ∧ (∃ σ', (SetSpeed speed;; SetTempo tempo) σ = Returned () σ'
     ∧ bound_cache_holds σ' (CDataCacheCore.SetSpeed tempo speed)).
Proof.
  repeat apply conj.
  all: run_method; eexists; (split; [reflexivity|]); cbn;
    repeat (split; [reflexivity|]);
    unfold bound_cache_holds, cache_holds; cbn; try exact I;
    rewrite <- ?app_assoc, !last_call_app; cbn;
    by rewrite bool_decide_eq_true_2.
Qed.

(** ** Render-layer flags *)

Ltac skip_other_member :=
  repeat match goal with
         | |- context [bool_decide (?a = ?b ∧ ?m = ?n)] =>
             rewrite (bool_decide_eq_false_2 (a = b ∧ m = n))
               by (intros [_ ?]; discriminate)
         end.

Lemma mirroring_operations_keep_render_flags :
  Forall (preserves render_flags_in_step) mirroring_operations.
Proof.
  unfold mirroring_operations, mirroring_setters. cbn [map app].
  repeat apply Forall_cons_2; try apply Forall_nil_2;
    intros v σ [gui video]; cbn in v;
    repeat match goal with v : (_ * _)%type |- _ => destruct v end.
  all: revert gui video;
    unfold render_flags_in_step, bound_cache_holds, cache_holds.
  all: run_method; intros gui video; eexists; (split; [reflexivity|]).
  all: cbv -[app last_call bool_decide].
  all: try (split; exact I).
  all: rewrite <- ?app_assoc, !last_call_app;
    cbn [last_call CDataCacheCore.member]; skip_other_member.
  all: try (split; assumption).
  all: rewrite ?bool_decide_eq_true_2 by (split; reflexivity).
  all: try (split; first [assumption|reflexivity]).
Qed.

Lemma set_render_flags_in_step calls : ∀ σ,
  render_flags_in_step σ →
  ∃ σ', for_each calls set_render_flag σ = Returned () σ'
    ∧ m_dataCache (this σ') = m_dataCache (this σ)
    ∧ render_flags_in_step σ'.
Proof.
  pose proof mirroring_operations_keep_render_flags as kept.
  unfold mirroring_operations in kept.
  apply Forall_app in kept as [_ kept].
  apply Forall_cons in kept as [gui kept].
  apply Forall_cons in kept as [video _].
  induction calls as [|[which v] calls IH]; intros σ step.
  - exists σ. by destruct σ.
  - cbn [for_each]. unfold set_render_flag at 1. cbn [fst snd].
    destruct which.
    + destruct (gui v σ step) as (σ1 & ran & step1).
      destruct (SetGuiRender_mirrors_changes v σ)
        as (σ1' & ran' & _ & bound & _).
      cbn [run] in ran. rewrite ran in ran'. injection ran' as <-.
      rewrite (bind_Returned _ _ _ _ _ ran).
      destruct (IH σ1 step1) as (σ' & rest & bound' & step').
      exists σ'. by rewrite bound', bound.
    + destruct (video v σ step) as (σ1 & ran & step1).
      destruct (SetVideoRender_mirrors_changes v σ)
        as (σ1' & ran' & _ & bound & _).
      cbn [run] in ran. rewrite ran in ran'. injection ran' as <-.
      rewrite (bind_Returned _ _ _ _ _ ran).
      destruct (IH σ1 step1) as (σ' & rest & bound' & step').
      exists σ'. by rewrite bound', bound.
Qed.

Lemma SetDataCache_effect cache σ :
  ∃ σ', SetDataCache (Some cache) σ = Returned () σ'
    ∧ m_dataCache (this σ') = Some cache
    ∧ m_renderGuiLayer (this σ') = false
    ∧ m_renderVideoLayer (this σ') = false
    ∧ trace σ' =
        (((trace σ ++
           Acquire m_videoCodecSection
             :: map (DataCache cache) reset_video_calls
             ++ [Release m_videoCodecSection])
          ++ [DataCache cache (CDataCacheCore.SetGuiRender false)])
         ++ [DataCache cache (CDataCacheCore.SetVideoRender false)])%list.
Proof.
  run_method; eexists; (split; [reflexivity|]); cbn;
    do 3 (split; [reflexivity|]); rewrite <- ?app_assoc; reflexivity.
Qed.

(** X13.  Although [SetGuiRender] and [SetVideoRender] call the cache
    only on a change, the cache never falls behind: after
    [SetDataCache(cache)] and any sequence of calls of the two setters, the
    bound cache holds both flags as the object stores them; and every other
    member function that calls the cache keeps it so. *)
Theorem render_flags_stay_in_step :
  (∀ cache calls σ, ∃ σ',
     (SetDataCache (Some cache);; for_each calls set_render_flag) σ
       = Returned () σ'
     ∧ m_dataCache (this σ') = Some cache
     ∧ render_flags_in_step σ')
  ∧ Forall (preserves render_flags_in_step) mirroring_operations.
Proof.
  split; [|apply mirroring_operations_keep_render_flags].
  intros cache calls σ.
  destruct (SetDataCache_effect cache σ)
    as (σ1 & run & bound & gui & video & events).
  assert (render_flags_in_step σ1) as step.
  { unfold render_flags_in_step, bound_cache_holds.
    rewrite bound, gui, video, events. split.
    - apply cache_holds_before; [|apply cache_holds_last].
      by intros c' [= <-].
    - apply cache_holds_last. }
  rewrite (bind_Returned _ _ _ _ _ run).
  destruct (set_render_flags_in_step calls σ1 step) as (σ' & rest & same & ?).
  exists σ'. split; [exact rest|]. split; [|assumption].
  by rewrite same.
Qed.

(** ** Critical sections *)

Lemma lock_replay_Acquire held s rest :
  lock_replay held (Acquire s :: rest) =
    match lock_replay (s :: held) rest with
    | Some r => Some ((map (λ h, (h, s)) held ++ r.1)%list, r.2)
    | None => None
    end.
Proof. reflexivity. Qed.

Lemma lock_replay_Release held s rest :
  lock_replay (s :: held) (Release s :: rest) = lock_replay held rest.
Proof. cbn. by rewrite bool_decide_eq_true_2. Qed.

Lemma lock_replay_Supports_locks render rest held :
  lock_replay held (Supports_locks render ++ rest) =
    match lock_replay held rest with
    | Some r =>
        Some ((mjoin (map (λ _, map (λ h, (h, m_videoCodecSection)) held)
                        render) ++ r.1)%list, r.2)
    | None => None
    end.
Proof.
  induction render as [|deint render IH].
  - cbn. by destruct (lock_replay held rest) as [[pairs calls]|].
  - change (Supports_locks (deint :: render) ++ rest)%list
      with (Acquire m_videoCodecSection :: Release m_videoCodecSection
              :: (Supports_locks render ++ rest))%list.
    rewrite lock_replay_Acquire, lock_replay_Release, IH.
    destruct (lock_replay held rest) as [[pairs calls]|]; [|done].
    cbn. by rewrite <- app_assoc.
Qed.

Ltac allowed_nestings :=
  repeat first
    [ apply Forall_nil_2
    | apply Forall_cons_2;
      [ first [ by left | by right; left ] | ] ].

Lemma straight_operations_disciplined :
  Forall disciplined
    (mirroring_operations
     ++ map (λ s, {| run := s_setter s |}) storing_setters
     ++ map call_getter accessor_pairs
     ++ [ {| run := SetLevelVQ |};
          {| run := λ _ : (), discard GetPixFormats |} ])%list.
Proof.
  unfold mirroring_operations, mirroring_setters, storing_setters,
    accessor_pairs, call_getter.
  cbn [map app a_getter s_setter setter].
  repeat apply Forall_cons_2; try apply Forall_nil_2;
    intros v σ; cbn in v;
    repeat match goal with v : (_ * _)%type |- _ => destruct v end.
  all: (let p := fresh "p" in let t := fresh "t" in
             destruct σ as [p t]; destruct p as [dataCache]);
    destruct dataCache;
    cbv -[Bool.eqb app lock_replay nestings empty appended];
    repeat match goal with
           | |- context [Bool.eqb ?a ?b] =>
               destruct a; destruct b;
               cbv -[app lock_replay nestings empty appended]
           | |- context [empty ?l] =>
               is_var l; destruct l; cbv -[app lock_replay nestings appended]
           end.
  all: eexists _, _; (split; [reflexivity|]).
  all: unfold appended; cbn [trace]; rewrite <- ?app_assoc;
    first [rewrite drop_app_length | rewrite drop_all].
  all: (split; [cbv; reflexivity|]).
  all: allowed_nestings.
Qed.



Lemma SetDeinterlacingMethodDefault_effect method σ :
  SetDeinterlacingMethodDefault method σ =
    Returned ()
      {| this := (this σ)<|m_deintMethodDefault := method|>;
         trace := trace σ ++ [Acquire m_videoCodecSection;
                              Release m_videoCodecSection] |}.
Proof.
  destruct σ as [p t], p.
  unfold SetDeinterlacingMethodDefault, unique_lock, mbind, Method_bind,
    mret, Method_ret, emit, store.
  cbn. by rewrite <- app_assoc.
Qed.

Lemma nestings_of_Supports_locks held (render : list EINTERLACEMETHOD) :
  Forall (λ h, (h, m_videoCodecSection) ∈ nestings) held →
  Forall (λ pair, pair ∈ nestings)
    (mjoin (map (λ _, map (λ h, (h, m_videoCodecSection)) held) render)).
Proof.
  intros allowed. induction render as [|deint render IH]; [constructor|].
  cbn. apply Forall_app. split; [|exact IH].
  by apply Forall_fmap.
Qed.

Lemma looping_operations_disciplined :
  Forall disciplined
    [ {| run := λ method, discard (Supports method) |};
      {| run := UpdateDeinterlacingMethods |};
      {| run := UpdateRenderInfo |};
      {| run := λ _ : (), SetSwDeinterlacingMethods |} ].
Proof.
  repeat apply Forall_cons_2; try apply Forall_nil_2; intros v σ; cbn [run].
  - eexists _, _. split.
    { unfold discard. rewrite (bind_Returned _ _ _ _ _ (Supports_effect _ _)). reflexivity. }
    unfold appended. cbn [trace]. rewrite drop_app_length.
    split; [reflexivity|]. constructor.
  - eexists _, _. split; [apply UpdateDeinterlacingMethods_effect|].
    unfold appended. cbn [trace]. rewrite drop_app_length.
    cbn [app]. rewrite lock_replay_Acquire, lock_replay_Supports_locks.
    split; [reflexivity|]. cbn [map app fst snd].
    apply Forall_app. split.
    + apply (nestings_of_Supports_locks [m_videoCodecSection]).
      allowed_nestings.
    + allowed_nestings.
  - eexists _, _. split; [apply UpdateRenderInfo_effect|].
    unfold appended. cbn [trace]. rewrite drop_app_length.
    cbn [app]. rewrite lock_replay_Acquire, lock_replay_Supports_locks.
    split; [reflexivity|]. cbn [map app fst snd].
    apply Forall_app. split.
    + apply (nestings_of_Supports_locks [m_renderSection]).
      allowed_nestings.
    + allowed_nestings.
  - eexists _, _. split.
    { unfold SetSwDeinterlacingMethods.
      rewrite (bind_Returned _ _ _ _ _
                 (UpdateDeinterlacingMethods_effect _ _)).
      apply SetDeinterlacingMethodDefault_effect. }
    unfold appended. cbn [trace]. rewrite <- app_assoc, drop_app_length.
    cbn [app]. rewrite lock_replay_Acquire, <- app_assoc,
      lock_replay_Supports_locks.
    split; [reflexivity|]. cbn [map app fst snd].
    apply Forall_app. split.
    + apply (nestings_of_Supports_locks [m_videoCodecSection]).
      allowed_nestings.
    + allowed_nestings.
Qed.

(** X7.  Every member function of [locking_operations] releases the
    critical sections it acquires in reverse order and holds none when it
    returns; it makes every cache call while holding one; and the only
    nestings are [m_videoCodecSection] acquired while [m_renderSection] is
    held ([UpdateRenderInfo]) and [m_videoCodecSection] acquired again
    while it is held ([UpdateDeinterlacingMethods]).  No function acquires
    [m_renderSection], or any other section, while holding
    [m_videoCodecSection]. *)
Theorem critical_sections_nest_one_way :
  Forall disciplined locking_operations.
Proof.
  unfold locking_operations.
  pose proof straight_operations_disciplined as straight.
  rewrite !Forall_app in straight.
  destruct straight as (mirroring & storing & getters & rest).
  apply Forall_cons in rest as (level & rest).
  apply Forall_cons in rest as (formats & _).
  rewrite !Forall_app. do 3 (split; [assumption|]).
  do 2 (apply Forall_cons_2; [assumption|]).
  apply looping_operations_disciplined.
Qed.

(** X8.  [SetDataCache] makes its two calls [SetGuiRender(false)] and
    [SetVideoRender(false)] on the new cache after the critical section of
    [ResetVideoCodecInfo] has been left: they are the only cache calls of
    the class made while no critical section is held. *)
Theorem SetDataCache_calls_outside_critical_sections cache σ :
  ∃ σ', SetDataCache (Some cache) σ = Returned () σ'
    ∧ lock_replay [] (appended σ σ') =
        Some ([], [(cache, CDataCacheCore.SetGuiRender false);
                   (cache, CDataCacheCore.SetVideoRender false)]).
Proof.
  destruct (SetDataCache_effect cache σ) as (σ' & run & _ & _ & _ & events).
  exists σ'. split; [exact run|].
  unfold appended. rewrite events, <- !app_assoc, drop_app_length.
  cbn [app]. rewrite lock_replay_Acquire.
  assert (∀ calls rest,
    lock_replay [m_videoCodecSection] (map (DataCache cache) calls ++ rest)
    = lock_replay [m_videoCodecSection] rest) as inside.
  { intros calls rest.
    induction calls as [|c calls IH]; [reflexivity|].
    cbn [map app]. change (lock_replay ?held (DataCache ?a ?c :: ?l))
      with (match lock_replay held l with
            | Some r => Some (r.1, match held with
                                   | [] => (a, c) :: r.2
                                   | _ :: _ => r.2
                                   end)
            | None => None
            end).
    rewrite IH. by destruct (lock_replay _ rest) as [[pairs calls']|]. }
  rewrite <- app_assoc, inside. cbn [app].
  rewrite lock_replay_Release. reflexivity.
Qed.

End MoreProperties.

(** ** Tempo limits at the edges *)

Lemma fp_lt_le_trans a b c :
  fp_lt a b = true → fp_le b c = true → fp_lt a c = true.
Proof.
  unfold fp_lt, fp_le, SFltb, SFleb, SFcompare.
  destruct a, b, c; intros; fp_order.
Qed.

(** X10.  At the edges: a NaN tempo is never allowed; the platform
    minimum [0.75f] itself is never allowed; the platform maximum [1.55f]
    itself is allowed exactly when the configured maximum is greater;
    normal speed [1.0f] is allowed whatever is configured; and every
    allowed tempo is greater than zero. *)
Theorem IsTempoAllowed_edges (advancedSettings : CAdvancedSettings) :
  IsTempoAllowed advancedSettings S754_nan = false
  ∧ IsTempoAllowed advancedSettings MinTempoPlatform = false
  ∧ IsTempoAllowed advancedSettings MaxTempoPlatform =
      fp_lt MaxTempoPlatform (m_maxTempo advancedSettings)
  ∧ IsTempoAllowed advancedSettings normal_tempo = true
  ∧ (∀ tempo, IsTempoAllowed advancedSettings tempo = true →
              fp_lt (S754_zero false) tempo = true).
Proof.
  split; [reflexivity|]. split; [reflexivity|].
  split.
  { unfold IsTempoAllowed.
    change (fp_gt MaxTempoPlatform MinTempoPlatform) with true.
    change (fp_lt MaxTempoPlatform MaxTempoPlatform) with false.
    cbn [andb orb].
    by destruct (fp_lt MaxTempoPlatform (m_maxTempo advancedSettings)). }
  split; [reflexivity|].
  intros tempo. unfold IsTempoAllowed, fp_gt, fp_lt.
  destruct (SFltb MinTempoPlatform tempo) eqn:above;
    [intros _|cbn; intros absurd; discriminate absurd].
  revert above. unfold SFltb, SFcompare, MinTempoPlatform.
  destruct tempo; intros; fp_order.
Qed.

(** X11.  Raising the configured maximum never takes a tempo away: a
    tempo allowed under one configured maximum is allowed under every
    greater or equal one. *)
Theorem IsTempoAllowed_monotone (lower higher : CAdvancedSettings)
    (tempo : float) :
  fp_le (m_maxTempo lower) (m_maxTempo higher) = true →
  IsTempoAllowed lower tempo = true →
  IsTempoAllowed higher tempo = true.
Proof.
  intros raised. unfold IsTempoAllowed.
  destruct (fp_gt tempo MinTempoPlatform); [|done].
  destruct (fp_lt tempo MaxTempoPlatform); [done|]. cbn.
  destruct (fp_lt tempo (m_maxTempo lower)) eqn:below; [intros _|done].
  by rewrite (fp_lt_le_trans _ _ _ below raised).
Qed.

(** ** Creating instances *)

Lemma first_created_fallback range :
  (first_created range).2 = NewCProcessInfo ↔
  Forall (λ info, info.2 () = None) range.
Proof.
  induction range as [|[id f] rest IH]; cbn.
  - split; [constructor|done].
  - destruct (f ()) as [ret|] eqn:made; cbn.
    + split; [done|]. intros all. apply Forall_cons in all as [none _].
      cbn in none. congruence.
    + rewrite IH. split; [by constructor|].
      intros all. by apply Forall_cons in all as [_ ?].
Qed.

Lemma first_created_by_callback range ret :
  (first_created range).2 = ByCallback ret →
  ∃ info, info ∈ range ∧ info.2 () = Some ret.
Proof.
  induction range as [|[id f] rest IH]; cbn; [done|].
  destruct (f ()) as [made|] eqn:call; cbn.
  - intros [= <-]. exists (id, f). split; [by left|done].
  - intros result. destruct (IH result) as (other & inside & made).
    exists other. split; [by right|done].
Qed.

Lemma first_created_consulted range id :
  id ∈ (first_created range).1 → id ∈ map fst range.
Proof.
  induction range as [|[id' f] rest IH]; cbn; [done|].
  destruct (f ()) as [made|]; cbn.
  - intros ->%list_elem_of_singleton. by left.
  - intros [->|inside]%elem_of_cons; [by left|]. right. by apply IH.
Qed.

Lemma elem_of_in_key_order m info :
  info ∈ in_key_order m ↔ m !! info.1 = Some info.2.
Proof.
  unfold in_key_order. rewrite merge_sort_Permutation.
  destruct info as [id f]. apply elem_of_map_to_list.
Qed.

(** X12.  For every content of the registry, [CreateInstance] returns a
    fresh plain [CProcessInfo] exactly when every registered callback
    returns a null pointer; an object it returns otherwise is what a
    registered callback returned; and it calls registered callbacks
    only. *)
Theorem CreateInstance_fallback (m : gmap string CreateProcessControl) :
  ((CreateInstance m).2 = NewCProcessInfo ↔
     ∀ id createFunc, m !! id = Some createFunc → createFunc () = None)
  ∧ (∀ ret, (CreateInstance m).2 = ByCallback ret →
       ∃ id createFunc, m !! id = Some createFunc ∧ createFunc () = Some ret)
  ∧ (∀ id, id ∈ (CreateInstance m).1 → is_Some (m !! id)).
Proof.
  unfold CreateInstance. split; [|split].
  - rewrite first_created_fallback, Forall_forall. split.
    + intros all id f registered.
      by apply (all (id, f)), elem_of_in_key_order.
    + intros all [id f] inside. apply (all id f).
      by apply elem_of_in_key_order in inside.
  - intros ret made.
    destruct (first_created_by_callback _ _ made) as ([id f] & inside & call).
    exists id, f. split; [by apply elem_of_in_key_order in inside|done].
  - intros id asked. apply first_created_consulted in asked.
    apply list_elem_of_fmap in asked as ([id' f] & -> & inside).
    apply elem_of_in_key_order in inside. by exists f.
Qed.

(** ** The presentation timestamp of the decoder *)

(** X14.  [GetOMXPts] returns the pts cut down to 32 bits: the result is
    in the range of [int], differs from [m_cur_pts] by a multiple of 2^32,
    and equals it exactly when [m_cur_pts] is below 2^31; [SetDrain],
    whatever its argument, stores the argument and does not change what
    [GetOMXPts] and [GetBufferIndex] return. *)
Theorem GetOMXPts_wraps (codec : CAMLCodec) :
  0 ≤ m_cur_pts codec < 2 ^ 64 →
  - 2 ^ 31 ≤ GetOMXPts codec < 2 ^ 31
  ∧ (GetOMXPts codec - m_cur_pts codec) mod 2 ^ 32 = 0
  ∧ (GetOMXPts codec = m_cur_pts codec ↔ m_cur_pts codec < 2 ^ 31)
  ∧ (∀ drain,
       GetOMXPts (SetDrain drain codec) = GetOMXPts codec
       ∧ GetBufferIndex (SetDrain drain codec) = GetBufferIndex codec
       ∧ m_drain (SetDrain drain codec) = drain).
Proof.
  intros range. unfold GetOMXPts, GetBufferIndex, static_cast_int.
  cbn [m_cur_pts m_bufferIndex m_drain SetDrain].
  set (x := m_cur_pts codec) in *.
  pose proof (Z.mod_pos_bound (x + 2 ^ 31) (2 ^ 32) eq_refl) as bound.
  pose proof (Z.div_mod (x + 2 ^ 31) (2 ^ 32) ltac:(lia)) as split.
  repeat apply conj; try lia; [|intros drain; repeat apply conj; reflexivity].
  replace ((x + 2 ^ 31) mod 2 ^ 32 - 2 ^ 31 - x)
    with (- ((x + 2 ^ 31) `div` 2 ^ 32) * 2 ^ 32) by lia.
  apply Z.mod_mul. lia.
Qed.

(** ** Closed runs of the further properties *)

(** X2 at a concrete input: the caller passes [16; 17], the renderer
    reports [2; 16; 2]. *)
Lemma UpdateDeinterlacingMethods_keeps_distinct_witness :
  NoDup ([16; 17] : list (@EINTERLACEMETHOD demo))
  ∧ ∃ σ', UpdateDeinterlacingMethods (H := demo) [16; 17]
            (demo_machine [2; 16; 2]) = Returned () σ'
      ∧ NoDup (m_deintMethods (this σ')).
Proof.
  assert (NoDup ([16; 17] : list (@EINTERLACEMETHOD demo))) as distinct.
  { apply (bool_decide_unpack _). vm_compute. exact I. }
  split; [exact distinct|].
  exact (UpdateDeinterlacingMethods_keeps_distinct (H := demo) [16; 17]
           (demo_machine [2; 16; 2]) distinct).
Defined.

(** X11 at a concrete input: the tempo [1.75f] under the configured maxima
    [2.0f] and [3.0f]. *)
Lemma IsTempoAllowed_monotone_witness :
  fp_le (m_maxTempo demo_settings_2) (m_maxTempo demo_settings_3) = true
  ∧ IsTempoAllowed demo_settings_2 demo_tempo = true
  ∧ IsTempoAllowed demo_settings_3 demo_tempo = true.
Proof.
  split; [reflexivity|]. split; [reflexivity|].
  apply (IsTempoAllowed_monotone demo_settings_2 demo_settings_3 demo_tempo);
    reflexivity.
Defined.

(** X14 at a concrete input: a pts of 2^31 + 90000 reads as
    -2^31 + 90000, before and after [SetDrain(true)] and
    [SetDrain(false)]. *)
Lemma GetOMXPts_wraps_witness :
  0 ≤ m_cur_pts late_codec < 2 ^ 64
  ∧ GetOMXPts late_codec = - 2 ^ 31 + 90000
  ∧ (GetOMXPts late_codec - m_cur_pts late_codec) mod 2 ^ 32 = 0
  ∧ GetOMXPts late_codec ≠ m_cur_pts late_codec
  ∧ GetOMXPts (SetDrain true late_codec) = GetOMXPts late_codec
  ∧ GetOMXPts (SetDrain false late_codec) = GetOMXPts late_codec.
Proof.
  assert (0 ≤ m_cur_pts late_codec < 2 ^ 64) as range by (cbn; lia).
  destruct (GetOMXPts_wraps late_codec range)
    as (_ & multiple & exact & unchanged).
  split; [exact range|]. split; [reflexivity|]. split; [exact multiple|].
  split; [intros same; apply exact in same; cbn in same; lia|].
  split; [apply (unchanged true)|apply (unchanged false)].
Defined.
